(** * Turnip: the pump.fun deployment and trade pipeline

    A shallow embedding of [src/solana/pumpportal.ts] ([PumpPortalClient]:
    [uploadMetadata], [deploy], [buy], [sell]) and of the part of
    [src/agent.ts] that wraps it ([TurnipAgent]: [deploy], [buyToken],
    [sellToken]).

    The methods are asynchronous chains of network calls inside one
    [try]/[catch].  They are embedded in a small monad that threads the
    history of external calls and carries JavaScript exceptions; the
    network, the key generator and the Solana library are oracles that
    answer from the history so far. *)

From Stdlib Require Import ZArith List String Ascii Bool Lia.
From Stdlib Require Import Floats.SpecFloat.
Import ListNotations.
Open Scope string_scope.
Open Scope list_scope.
Set Warnings "-register-all".

(** ** JavaScript values *)

Module JS.

(** A JavaScript [number] is an IEEE-754 binary64 value. *)
Definition number : Type := spec_float.

Definition prec : Z := 53.
Definition emax : Z := 1024.

(** The number denoted by an integer literal. *)
Definition of_Z (z : Z) : number := binary_normalize prec emax z 0 false.

Definition num_0 : number := Eval cbv in of_Z 0.
Definition num_3 : number := Eval cbv in of_Z 3.
Definition num_10 : number := Eval cbv in of_Z 10.

(** The literal [0.0005]: the binary64 nearest to 5/10000. *)
Definition num_0_0005 : number :=
  Eval cbv in SFdiv prec emax (of_Z 5) (of_Z 10000).

(** [ToBoolean] on a number: [+0], [-0] and [NaN] are falsy. *)
Definition num_truthy (n : number) : bool :=
  match n with
  | S754_zero _ => false
  | S754_nan => false
  | S754_infinity _ => true
  | S754_finite _ _ _ => true
  end.

(** [ToBoolean] on a string: only the empty string is falsy. *)
Definition str_truthy (s : string) : bool :=
  match s with
  | EmptyString => false
  | String _ _ => true
  end.

(** [x || d] where [x] is [number | undefined]; an optional property or
    parameter is an [option], with [None] for [undefined]. *)
Definition or_number (x : option number) (d : number) : number :=
  match x with
  | Some n => if num_truthy n then n else d
  | None => d
  end.

(** [x || d] where [x] is [string | undefined]. *)
Definition or_string (x : option string) (d : string) : string :=
  match x with
  | Some s => if str_truthy s then s else d
  | None => d
  end.

(** [x ?? y]: only [undefined] (and [null]) falls through to [y]. *)
Definition nullish {A : Type} (x y : option A) : option A :=
  match x with
  | Some a => Some a
  | None => y
  end.

(** A default parameter [x = d]: only [undefined] takes the default. *)
Definition default_param {A : Type} (x : option A) (d : A) : A :=
  match x with
  | Some a => a
  | None => d
  end.

(** Dynamically typed values: what a remote JSON answer or a thrown
    non-[Error] can be. *)
Inductive value : Type :=
| VUndefined
| VNull
| VBool (b : bool)
| VNum (n : number)
| VStr (s : string)
| VArr (items : list value)
| VObj (fields : list (string * value)).

(** [ToBoolean]. *)
Definition truthy (v : value) : bool :=
  match v with
  | VUndefined => false
  | VNull => false
  | VBool b => b
  | VNum n => num_truthy n
  | VStr s => str_truthy s
  | VArr _ => true
  | VObj _ => true
  end.

(** [typeof v === 'object' && v !== null]. *)
Definition is_object (v : value) : bool :=
  match v with
  | VArr _ => true
  | VObj _ => true
  | _ => false
  end.

(** What [throw] can carry: an [Error] instance with its [message], or
    any other value. *)
Inductive exn : Type :=
| Error (message : string)
| NonError (v : value).

(** [error instanceof Error ? error.message : 'Unknown error']. *)
Definition catch_message (error : exn) : string :=
  match error with
  | Error message => message
  | NonError _ => "Unknown error"
  end.

End JS.
Export JS.

(** ** [src/solana/pumpportal.ts] *)

Module PumpPortal.

(** *** Data model *)

Definition Buffer : Type := list Byte.byte.

(** A [PublicKey] of [@solana/web3.js].  The code reads a public key only
    through [toBase58()], so a key is represented by that address. *)
Record PublicKey : Type := mkPublicKey { toBase58 : string }.

Record Keypair : Type := mkKeypair {
  publicKey : PublicKey;
  secretKey : Buffer
}.

(** [interface TokenMetadata]; [image] is [Buffer | string]. *)
Record TokenMetadata : Type := mkTokenMetadata {
  name : string;
  symbol : string;
  description : string;
  image : Buffer + string;
  twitter : option string;
  telegram : option string;
  website : option string
}.

(** [interface DeployOptions]. *)
Record DeployOptions : Type := mkDeployOptions {
  metadata : TokenMetadata;
  devBuyAmount : option number;
  slippage : option number
}.

(** [interface DeployResult]; an optional property that is not written
    is [None]. *)
Record DeployResult : Type := mkDeployResult {
  success : bool;
  mint : option string;
  signature : option string;
  metadataUri : option string;
  pumpUrl : option string;
  error : option string
}.

(** The result type of [buy] and [sell]:
    [{ success: boolean; signature?: string; error?: string }]. *)
Record TradeResult : Type := mkTradeResult {
  trade_success : bool;
  trade_signature : option string;
  trade_error : option string
}.

(** One entry of a multipart form. *)
Inductive FormValue : Type :=
| FText (text : string)
| FFile (content : Buffer) (filename contentType : string).

Definition FormData : Type := list (string * FormValue).

(** [formData.append(field, v)]. *)
Definition append (form : FormData) (field : string) (v : FormValue) : FormData :=
  form ++ [(field, v)].

(** [if (s) formData.append(field, s)]. *)
Definition append_if (form : FormData) (field : string) (s : option string) : FormData :=
  match s with
  | Some t => if str_truthy t then append form field (FText t) else form
  | None => form
  end.

Inductive Action : Type := create | buy_action | sell_action.

Definition action_name (a : Action) : string :=
  match a with
  | create => "create"
  | buy_action => "buy"
  | sell_action => "sell"
  end.

(** The [tokenMetadata] object of a create request. *)
Record RequestTokenMetadata : Type := mkRequestTokenMetadata {
  tm_name : string;
  tm_symbol : string;
  tm_uri : string
}.

(** The JSON body posted to [/trade-local]. *)
Record TradeRequest : Type := mkTradeRequest {
  req_publicKey : string;
  req_action : Action;
  req_tokenMetadata : option RequestTokenMetadata;
  req_mint : string;
  req_denominatedInSol : string;
  req_amount : number;
  req_slippage : number;
  req_priorityFee : number;
  req_pool : string
}.

(** The answer of [/ipfs], as far as the code reads it:
    [response.data.metadataUri], for a body that is an object.  A body
    on which that read itself throws ([null], [undefined]) is a throw
    of the post: the [TypeError] leaves [uploadMetadata] as any
    exception of [axios.post] does. *)
Record IpfsResponse : Type := mkIpfsResponse {
  resp_metadataUri : option string
}.

(** A [VersionedTransaction]: the message bytes and the signatures
    attached so far. *)
Record VersionedTransaction : Type := mkVersionedTransaction {
  message : Buffer;
  signatures : list Buffer
}.

(** The options object of [connection.sendTransaction]. *)
Record SendOptions : Type := mkSendOptions {
  skipPreflight : bool;
  preflightCommitment : string;
  maxRetries : option number
}.

(** [confirmation.value.err]: [null] or the on-chain error. *)
Record Confirmation : Type := mkConfirmation {
  err : value
}.

(** *** External calls and their history *)

Inductive Event : Type :=
| EvPostForm (url : string) (form : FormData)
| EvPostJson (url : string) (body : TradeRequest)
| EvGenerate (k : Keypair)
| EvDeserialize (bytes : Buffer)
| EvSign (tx : VersionedTransaction) (signers : list Keypair)
| EvSend (tx : VersionedTransaction) (opts : SendOptions)
| EvConfirm (sig : string) (commitment : string).

Definition History : Type := list Event.

Inductive Result (A : Type) : Type :=
| Ok (a : A)
| Throw (e : exn).

Arguments Ok {A} a.
Arguments Throw {A} e.

(** [connection: Connection]: the RPC node, answering from the history. *)
Record Connection : Type := mkConnection {
  sendTransaction : History -> VersionedTransaction -> SendOptions -> Result string;
  confirmTransaction : History -> string -> string -> Result Confirmation
}.

(** Everything else the module imports. *)
Record Env : Type := mkEnv {
  JSON_stringify : value -> string;
  Buffer_from_base64 : string -> Buffer;
  axios_post_form : History -> string -> FormData -> Result IpfsResponse;
  axios_post_json : History -> string -> TradeRequest -> Result (option string);
  Keypair_generate : History -> Keypair;
  VersionedTransaction_deserialize : Buffer -> Result VersionedTransaction;
  VersionedTransaction_sign :
    VersionedTransaction -> list Keypair -> Result VersionedTransaction
}.

(** *** The monad of a method body

    A computation reads the history of external calls, may extend it, and
    either returns or throws. *)

Definition M (A : Type) : Type := History -> Result A * History.

Definition ret {A : Type} (a : A) : M A := fun h => (Ok a, h).

Definition throw {A : Type} (e : exn) : M A := fun h => (Throw e, h).

Definition bind {A B : Type} (c : M A) (k : A -> M B) : M B :=
  fun h =>
    match c h with
    | (Ok a, h') => k a h'
    | (Throw e, h') => (Throw e, h')
    end.

Notation "x <- c ;; k" := (bind c (fun x => k))
  (at level 100, c at next level, right associativity).

(** [try { body } catch (error) { handler }]. *)
Definition try_catch {A : Type} (body : M A) (handler : exn -> M A) : M A :=
  fun h =>
    match body h with
    | (Ok a, h') => (Ok a, h')
    | (Throw e, h') => handler e h'
    end.

(** An external call: the oracle answers from the history before the
    call, and the call is appended to the history. *)
Definition call {A : Type} (ev : Event) (answer : History -> Result A) : M A :=
  fun h => (answer h, h ++ [ev]).

(** *** [class PumpPortalClient] *)

Record Client : Type := mkClient {
  connection : Connection;
  wallet : Keypair
}.

(** [private baseUrl: string = 'https://pumpportal.fun/api'], never
    assigned again. *)
Definition baseUrl : string := "https://pumpportal.fun/api".

(** [getPublicKey()]. *)
Definition getPublicKey (this : Client) : string :=
  toBase58 (publicKey (wallet this)).

Section Methods.

Variable E : Env.

(** [Keypair.generate()]. *)
Definition generate : M Keypair :=
  fun h => let k := Keypair_generate E h in (Ok k, h ++ [EvGenerate k]).

(** [axios.post(url, formData, { headers: formData.getHeaders() })],
    giving [response.data]. *)
Definition post_form (url : string) (form : FormData) : M IpfsResponse :=
  call (EvPostForm url form) (fun h => axios_post_form E h url form).

(** [axios.post(url, body, { headers: { 'Content-Type': 'application/json' } })],
    giving [response.data]. *)
Definition post_json (url : string) (body : TradeRequest) : M (option string) :=
  call (EvPostJson url body) (fun h => axios_post_json E h url body).

(** [Buffer.from(data, 'base64')]: a [TypeError] when [data] is
    [undefined]. *)
Definition Buffer_from (data : option string) : M Buffer :=
  match data with
  | Some d => ret (Buffer_from_base64 E d)
  | None =>
      throw (Error "The first argument must be of type string or an instance of Buffer, ArrayBuffer, or Array or an Array-like Object. Received undefined")
  end.

(** [VersionedTransaction.deserialize(new Uint8Array(bytes))]. *)
Definition deserialize (bytes : Buffer) : M VersionedTransaction :=
  call (EvDeserialize bytes) (fun _ => VersionedTransaction_deserialize E bytes).

(** [tx.sign(signers)]; the signed transaction is returned. *)
Definition sign (tx : VersionedTransaction) (signers : list Keypair)
  : M VersionedTransaction :=
  call (EvSign tx signers) (fun _ => VersionedTransaction_sign E tx signers).

(** [this.connection.sendTransaction(tx, opts)]. *)
Definition send (this : Client) (tx : VersionedTransaction) (opts : SendOptions)
  : M string :=
  call (EvSend tx opts) (fun h => sendTransaction (connection this) h tx opts).

(** [this.connection.confirmTransaction(signature, commitment)]. *)
Definition confirm (this : Client) (sig : string) (commitment : string)
  : M Confirmation :=
  call (EvConfirm sig commitment)
       (fun h => confirmTransaction (connection this) h sig commitment).

(** [!response.data]. *)
Definition no_data (data : option string) : bool :=
  match data with
  | Some d => negb (str_truthy d)
  | None => true
  end.

(** The multipart form built by [uploadMetadata]. *)
Definition metadata_form (metadata : TokenMetadata) : FormData :=
  let formData : FormData := [] in
  let formData := append formData "name" (FText (name metadata)) in
  let formData := append formData "symbol" (FText (symbol metadata)) in
  let formData := append formData "description" (FText (description metadata)) in
  let imageBuffer :=
    match image metadata with
    | inr s => Buffer_from_base64 E s
    | inl b => b
    end in
  let formData := append formData "file" (FFile imageBuffer "image.png" "image/png") in
  let formData := append_if formData "twitter" (twitter metadata) in
  let formData := append_if formData "telegram" (telegram metadata) in
  let formData := append_if formData "website" (website metadata) in
  append formData "showName" (FText "true").

(** [async uploadMetadata(metadata: TokenMetadata): Promise<string>]. *)
Definition uploadMetadata (metadata : TokenMetadata) : M string :=
  let formData := metadata_form metadata in
  response <- post_form (String.append baseUrl "/ipfs") formData ;;
  match resp_metadataUri response with
  | Some uri =>
      if negb (str_truthy uri) then
        throw (Error "Failed to upload metadata to IPFS")
      else ret uri
  | None => throw (Error "Failed to upload metadata to IPFS")
  end.

(** The body of the create request. *)
Definition create_request (this : Client) (options : DeployOptions)
  (metadataUri : string) (mintKeypair : Keypair) : TradeRequest :=
  {| req_publicKey := toBase58 (publicKey (wallet this));
     req_action := create;
     req_tokenMetadata :=
       Some {| tm_name := name (metadata options);
               tm_symbol := symbol (metadata options);
               tm_uri := metadataUri |};
     req_mint := toBase58 (publicKey mintKeypair);
     req_denominatedInSol := "true";
     req_amount := or_number (devBuyAmount options) num_0;
     req_slippage := or_number (slippage options) num_10;
     req_priorityFee := num_0_0005;
     req_pool := "pump" |}.

(** The [try] block of [deploy]. *)
Definition deploy_body (this : Client) (options : DeployOptions) : M DeployResult :=
  metadataUri <- uploadMetadata (metadata options) ;;
  mintKeypair <- generate ;;
  response_data <-
    post_json (String.append baseUrl "/trade-local")
              (create_request this options metadataUri mintKeypair) ;;
  if no_data response_data then
    throw (Error "No response from PumpPortal API")
  else
    bytes <- Buffer_from response_data ;;
    tx <- deserialize bytes ;;
    tx <- sign tx [wallet this; mintKeypair] ;;
    signature <-
      send this tx {| skipPreflight := false;
                      preflightCommitment := "confirmed";
                      maxRetries := Some num_3 |} ;;
    confirmation <- confirm this signature "confirmed" ;;
    if truthy (err confirmation) then
      throw (Error (String.append "Transaction failed: "
                                  (JSON_stringify E (err confirmation))))
    else
      ret {| success := true;
             mint := Some (toBase58 (publicKey mintKeypair));
             signature := Some signature;
             metadataUri := Some metadataUri;
             pumpUrl := Some (String.append "https://pump.fun/"
                                            (toBase58 (publicKey mintKeypair)));
             error := None |}.

(** The [catch] block of [deploy]. *)
Definition deploy_catch (error : exn) : M DeployResult :=
  let message := catch_message error in
  ret {| success := false;
         mint := None;
         signature := None;
         metadataUri := None;
         pumpUrl := None;
         error := Some message |}.

(** [async deploy(options: DeployOptions): Promise<DeployResult>]. *)
Definition deploy (this : Client) (options : DeployOptions) : M DeployResult :=
  try_catch (deploy_body this options) deploy_catch.

(** The body of a buy or sell request. *)
Definition trade_request (this : Client) (action : Action) (denominatedInSol : string)
  (mint : string) (amount slippage : number) : TradeRequest :=
  {| req_publicKey := toBase58 (publicKey (wallet this));
     req_action := action;
     req_tokenMetadata := None;
     req_mint := mint;
     req_denominatedInSol := denominatedInSol;
     req_amount := amount;
     req_slippage := slippage;
     req_priorityFee := num_0_0005;
     req_pool := "pump" |}.

(** The [catch] block of [buy] and of [sell] (the same text in both). *)
Definition trade_catch (error : exn) : M TradeResult :=
  let message := catch_message error in
  ret {| trade_success := false;
         trade_signature := None;
         trade_error := Some message |}.

(** The [try] block of [buy]. *)
Definition buy_body (this : Client) (mint : string) (solAmount slippage : number)
  : M TradeResult :=
  response_data <-
    post_json (String.append baseUrl "/trade-local")
              (trade_request this buy_action "true" mint solAmount slippage) ;;
  bytes <- Buffer_from response_data ;;
  tx <- deserialize bytes ;;
  tx <- sign tx [wallet this] ;;
  signature <-
    send this tx {| skipPreflight := false;
                    preflightCommitment := "confirmed";
                    maxRetries := None |} ;;
  _ <- confirm this signature "confirmed" ;;
  ret {| trade_success := true;
         trade_signature := Some signature;
         trade_error := None |}.

(** [async buy(mint: string, solAmount: number, slippage: number = 10)]. *)
Definition buy (this : Client) (mint : string) (solAmount : number)
  (slippage : option number) : M TradeResult :=
  let slippage := default_param slippage num_10 in
  try_catch (buy_body this mint solAmount slippage) trade_catch.

(** The [try] block of [sell]. *)
Definition sell_body (this : Client) (mint : string) (tokenAmount slippage : number)
  : M TradeResult :=
  response_data <-
    post_json (String.append baseUrl "/trade-local")
              (trade_request this sell_action "false" mint tokenAmount slippage) ;;
  bytes <- Buffer_from response_data ;;
  tx <- deserialize bytes ;;
  tx <- sign tx [wallet this] ;;
  signature <-
    send this tx {| skipPreflight := false;
                    preflightCommitment := "confirmed";
                    maxRetries := None |} ;;
  _ <- confirm this signature "confirmed" ;;
  ret {| trade_success := true;
         trade_signature := Some signature;
         trade_error := None |}.

(** [async sell(mint: string, tokenAmount: number, slippage: number = 10)]. *)
Definition sell (this : Client) (mint : string) (tokenAmount : number)
  (slippage : option number) : M TradeResult :=
  let slippage := default_param slippage num_10 in
  try_catch (sell_body this mint tokenAmount slippage) trade_catch.

End Methods.

End PumpPortal.

(** ** [src/agent.ts] *)

Module Agent.

Import PumpPortal.

(** [interface GeneratedImage] of [ai/generator.ts]. *)
Record GeneratedImage : Type := mkGeneratedImage {
  url : string;
  base64 : string;
  prompt : string;
  revisedPrompt : option string;
  filePath : option string
}.

(** [interface TurnipConfig] of [index.ts]; the image settings are kept
    as the strings they are. *)
Record TurnipConfig : Type := mkTurnipConfig {
  openaiApiKey : string;
  heliusApiKey : string;
  walletPrivateKey : string;
  network : option string;
  imageQuality : option string;
  imageSize : option string;
  imageFormat : option string;
  defaultSlippage : option number;
  devBuyAmount : option number
}.

(** [class TurnipAgent], after its constructor ran: the fields the
    pipeline methods read. *)
Record TurnipAgent : Type := mkTurnipAgent {
  pumpPortal : Client;
  config : TurnipConfig
}.

(** The options object of [TurnipAgent.deploy]. *)
Record Options : Type := mkOptions {
  image : GeneratedImage;
  name : string;
  ticker : string;
  description : option string;
  twitter : option string;
  telegram : option string;
  website : option string;
  opt_devBuyAmount : option number;
  opt_slippage : option number
}.

(** The [metadata] object built by [TurnipAgent.deploy]. *)
Definition deploy_metadata (options : Options) : TokenMetadata :=
  {| PumpPortal.name := name options;
     PumpPortal.symbol := ticker options;
     PumpPortal.description :=
       or_string (description options)
                 (String.append (name options) " - AI-generated art token");
     PumpPortal.image := inr (base64 (image options));
     PumpPortal.twitter := twitter options;
     PumpPortal.telegram := telegram options;
     PumpPortal.website := website options |}.

(** The options [TurnipAgent.deploy] hands to [PumpPortalClient.deploy]. *)
Definition deploy_options (this : TurnipAgent) (options : Options) : DeployOptions :=
  {| PumpPortal.metadata := deploy_metadata options;
     PumpPortal.devBuyAmount :=
       nullish (opt_devBuyAmount options) (devBuyAmount (config this));
     PumpPortal.slippage :=
       nullish (opt_slippage options) (defaultSlippage (config this)) |}.

Section Methods.

Variable E : Env.

(** [getWalletAddress()]. *)
Definition getWalletAddress (this : TurnipAgent) : string :=
  getPublicKey (pumpPortal this).

(** [async deploy(options): Promise<DeployResult>]. *)
Definition deploy (this : TurnipAgent) (options : Options) : M DeployResult :=
  PumpPortal.deploy E (pumpPortal this) (deploy_options this options).

(** [async buyToken(mint, solAmount, slippage?)]. *)
Definition buyToken (this : TurnipAgent) (mint : string) (solAmount : number)
  (slippage : option number) : M TradeResult :=
  PumpPortal.buy E (pumpPortal this) mint solAmount
                 (nullish slippage (defaultSlippage (config this))).

(** [async sellToken(mint, tokenAmount, slippage?)]. *)
Definition sellToken (this : TurnipAgent) (mint : string) (tokenAmount : number)
  (slippage : option number) : M TradeResult :=
  PumpPortal.sell E (pumpPortal this) mint tokenAmount
                  (nullish slippage (defaultSlippage (config this))).

End Methods.

End Agent.

(** ** Runs and what they leave in the history *)

Import PumpPortal.

(** The result a run returned, if it returned. *)
Definition returned {A : Type} (run : Result A * History) : option A :=
  match fst run with
  | Ok a => Some a
  | Throw _ => None
  end.

(** The external calls a computation made when started at [h]. *)
Definition calls {A : Type} (c : M A) (h : History) : list Event :=
  skipn (List.length h) (snd (c h)).

(** The keypairs generated among some calls. *)
Fixpoint generated (evs : list Event) : list Keypair :=
  match evs with
  | [] => []
  | EvGenerate k :: evs' => k :: generated evs'
  | _ :: evs' => generated evs'
  end.

(** The requests posted to the trade-construction endpoint. *)
Fixpoint trade_requests (evs : list Event) : list TradeRequest :=
  match evs with
  | [] => []
  | EvPostJson _ body :: evs' => body :: trade_requests evs'
  | _ :: evs' => trade_requests evs'
  end.

(** The forms posted to the upload endpoint. *)
Fixpoint uploads (evs : list Event) : list FormData :=
  match evs with
  | [] => []
  | EvPostForm _ form :: evs' => form :: uploads evs'
  | _ :: evs' => uploads evs'
  end.

(** The options of every broadcast. *)
Fixpoint broadcasts (evs : list Event) : list SendOptions :=
  match evs with
  | [] => []
  | EvSend _ opts :: evs' => opts :: broadcasts evs'
  | _ :: evs' => broadcasts evs'
  end.

(** The commitment of every confirmation. *)
Fixpoint confirmations (evs : list Event) : list string :=
  match evs with
  | [] => []
  | EvConfirm _ commitment :: evs' => commitment :: confirmations evs'
  | _ :: evs' => confirmations evs'
  end.

(** Is the call one of the stages that follow the upload: request
    building, deserialization, signing, broadcast (or confirmation)? *)
Definition after_upload (ev : Event) : bool :=
  match ev with
  | EvPostForm _ _ => false
  | EvGenerate _ => false
  | EvPostJson _ _ => true
  | EvDeserialize _ => true
  | EvSign _ _ => true
  | EvSend _ _ => true
  | EvConfirm _ _ => true
  end.

(** The value of a form field, when the form has it. *)
Fixpoint form_field (form : FormData) (field : string) : option FormValue :=
  match form with
  | [] => None
  | (f, v) :: form' => if String.eqb f field then Some v else form_field form' field
  end.

(** The failure record of [deploy] with a given message. *)
Definition deploy_failure (message : string) : DeployResult :=
  {| success := false;
     mint := None;
     signature := None;
     metadataUri := None;
     pumpUrl := None;
     error := Some message |}.

(** The failure record of [buy] and [sell] with a given message. *)
Definition trade_failure (message : string) : TradeResult :=
  {| trade_success := false;
     trade_signature := None;
     trade_error := Some message |}.

(** The closed-outcome invariant of a [DeployResult]. *)
Definition closed_deploy_result (r : DeployResult) : Prop :=
  (success r = true -> error r = None) /\
  (success r = false ->
   (exists message, error r = Some message) /\
   mint r = None /\ signature r = None /\
   metadataUri r = None /\ pumpUrl r = None).

(** The closed-outcome invariant of a [TradeResult]; the type has no
    [mint], [metadataUri] or [pumpUrl]. *)
Definition closed_trade_result (r : TradeResult) : Prop :=
  (trade_success r = true -> trade_error r = None) /\
  (trade_success r = false ->
   (exists message, trade_error r = Some message) /\
   trade_signature r = None).

(** The options every broadcast is claimed to use. *)
Definition send_options_with_retries : SendOptions :=
  {| skipPreflight := false;
     preflightCommitment := "confirmed";
     maxRetries := Some num_3 |}.

(** The options [buy] and [sell] use. *)
Definition send_options_no_retries : SendOptions :=
  {| skipPreflight := false;
     preflightCommitment := "confirmed";
     maxRetries := None |}.

(** *** One deploy attempt in which every stage succeeds *)

Record DeployRun : Type := mkDeployRun {
  run_uri : string;
  run_mint : Keypair;
  run_data : string;
  run_tx : VersionedTransaction;
  run_signed : VersionedTransaction;
  run_signature : string;
  run_confirmation : Confirmation
}.

(** The calls of such an attempt, in order. *)
Definition deploy_run_calls (E : Env) (this : Client) (options : DeployOptions)
  (r : DeployRun) : list Event :=
  [ EvPostForm (String.append baseUrl "/ipfs") (metadata_form E (metadata options));
    EvGenerate (run_mint r);
    EvPostJson (String.append baseUrl "/trade-local")
               (create_request this options (run_uri r) (run_mint r));
    EvDeserialize (Buffer_from_base64 E (run_data r));
    EvSign (run_tx r) [wallet this; run_mint r];
    EvSend (run_signed r) send_options_with_retries;
    EvConfirm (run_signature r) "confirmed" ].

(** Upload, key generation, build, deserialization, signing and
    broadcast answer as [r] says, each asked at the history it is
    called at. *)
Definition stages_succeed (E : Env) (this : Client) (options : DeployOptions)
  (h : History) (r : DeployRun) : Prop :=
  let evs := deploy_run_calls E this options r in
  axios_post_form E h (String.append baseUrl "/ipfs")
                  (metadata_form E (metadata options))
    = Ok {| resp_metadataUri := Some (run_uri r) |} /\
  str_truthy (run_uri r) = true /\
  Keypair_generate E (h ++ firstn 1 evs) = run_mint r /\
  axios_post_json E (h ++ firstn 2 evs) (String.append baseUrl "/trade-local")
                  (create_request this options (run_uri r) (run_mint r))
    = Ok (Some (run_data r)) /\
  str_truthy (run_data r) = true /\
  VersionedTransaction_deserialize E (Buffer_from_base64 E (run_data r))
    = Ok (run_tx r) /\
  VersionedTransaction_sign E (run_tx r) [wallet this; run_mint r]
    = Ok (run_signed r) /\
  sendTransaction (connection this) (h ++ firstn 5 evs) (run_signed r)
                  send_options_with_retries
    = Ok (run_signature r) /\
  confirmTransaction (connection this) (h ++ firstn 6 evs) (run_signature r)
                     "confirmed"
    = Ok (run_confirmation r).

(** The success record [deploy] assembles. *)
Definition deploy_success (r : DeployRun) : DeployResult :=
  {| success := true;
     mint := Some (toBase58 (publicKey (run_mint r)));
     signature := Some (run_signature r);
     metadataUri := Some (run_uri r);
     pumpUrl := Some (String.append "https://pump.fun/"
                                    (toBase58 (publicKey (run_mint r))));
     error := None |}.

(** ** Concrete worlds *)

Module Scenario.

Fixpoint marks (n : nat) : string :=
  match n with
  | O => EmptyString
  | S n' => String "x" (marks n')
  end.

(** A key generator whose answer changes with every call made. *)
Definition fresh_key (h : History) : Keypair :=
  {| publicKey := {| toBase58 := String "M" (marks (List.length h)) |};
     secretKey := [] |}.

Definition wallet_key : Keypair :=
  {| publicKey := {| toBase58 := "Wa11et" |}; secretKey := [] |}.

(** The on-chain error of a transaction whose first instruction failed. *)
Definition instruction_error : value :=
  VObj [("InstructionError", VArr [VNum num_0; VStr "Custom"])].

(** A node that accepts every broadcast and confirms with [err]. *)
Definition node (err : value) : Connection :=
  {| sendTransaction := fun _ _ _ => Ok "5igNature";
     confirmTransaction := fun _ _ _ => Ok {| err := err |} |}.

Definition client (err : value) : Client :=
  {| connection := node err; wallet := wallet_key |}.

(** A stand-in for the JSON printer: it tells objects from the rest. *)
Definition print (v : value) : string :=
  if is_object v then "{...}" else "null".

(** A world in which the upload answers [upload] and every other call
    succeeds. *)
Definition world (upload : Result IpfsResponse) : Env :=
  {| JSON_stringify := print;
     Buffer_from_base64 := fun s => map byte_of_ascii (list_ascii_of_string s);
     axios_post_form := fun _ _ _ => upload;
     axios_post_json := fun _ _ _ => Ok (Some "AQID");
     Keypair_generate := fresh_key;
     VersionedTransaction_deserialize :=
       fun bytes => Ok {| message := bytes; signatures := [] |};
     VersionedTransaction_sign :=
       fun tx signers =>
         Ok {| message := message tx; signatures := map secretKey signers |} |}.

Definition uploaded : Result IpfsResponse :=
  Ok {| resp_metadataUri := Some "ipfs://meta" |}.

Definition good_world : Env := world uploaded.

Definition turnip : TokenMetadata :=
  {| name := "Cosmic Turnip";
     symbol := "CTRNP";
     description := "a turnip";
     image := inr "iVBORw0KGgo=";
     twitter := None;
     telegram := None;
     website := None |}.

Definition options (devBuyAmount slippage : option number) : DeployOptions :=
  {| metadata := turnip; devBuyAmount := devBuyAmount; slippage := slippage |}.

(** The attempt [deploy] makes in [good_world] when started at [h]. *)
Definition run_at (h : History) : DeployRun :=
  {| run_uri := "ipfs://meta";
     run_mint := fresh_key (h ++ [EvPostForm (String.append baseUrl "/ipfs")
                                             (metadata_form good_world turnip)]);
     run_data := "AQID";
     run_tx := {| message := Buffer_from_base64 good_world "AQID"; signatures := [] |};
     run_signed := {| message := Buffer_from_base64 good_world "AQID";
                      signatures := [[]; []] |};
     run_signature := "5igNature";
     run_confirmation := {| err := VNull |} |}.

Definition good_run : DeployRun := run_at [].

(** The history a first successful attempt leaves behind. *)
Definition after_first : History :=
  deploy_run_calls good_world (client VNull) (options None None) good_run.

(** An agent configured with a default dev buy of 1 SOL and a default
    slippage of 3 percent. *)
Definition agent : Agent.TurnipAgent :=
  {| Agent.pumpPortal := client VNull;
     Agent.config :=
       {| Agent.openaiApiKey := "sk";
          Agent.heliusApiKey := "key";
          Agent.walletPrivateKey := "secret";
          Agent.network := None;
          Agent.imageQuality := None;
          Agent.imageSize := None;
          Agent.imageFormat := None;
          Agent.defaultSlippage := Some num_3;
          Agent.devBuyAmount := Some (of_Z 1) |} |}.

Definition agent_options (description : option string)
  (devBuyAmount slippage : option number) : Agent.Options :=
  {| Agent.image := {| Agent.url := "https://img";
                       Agent.base64 := "iVBORw0KGgo=";
                       Agent.prompt := "a turnip";
                       Agent.revisedPrompt := None;
                       Agent.filePath := None |};
     Agent.name := "Cosmic Turnip";
     Agent.ticker := "CTRNP";
     Agent.description := description;
     Agent.twitter := None;
     Agent.telegram := None;
     Agent.website := None;
     Agent.opt_devBuyAmount := devBuyAmount;
     Agent.opt_slippage := slippage |}.

End Scenario.

(** ** More observers of a run *)

(** The place of a call in the pipeline: upload, key generation, build,
    deserialization, signing, broadcast, confirmation. *)
Definition stage (ev : Event) : nat :=
  match ev with
  | EvPostForm _ _ => 0
  | EvGenerate _ => 1
  | EvPostJson _ _ => 2
  | EvDeserialize _ => 3
  | EvSign _ _ => 4
  | EvSend _ _ => 5
  | EvConfirm _ _ => 6
  end.

(** The signer lists handed to [tx.sign]. *)
Fixpoint signer_sets (evs : list Event) : list (list Keypair) :=
  match evs with
  | [] => []
  | EvSign _ signers :: evs' => signers :: signer_sets evs'
  | _ :: evs' => signer_sets evs'
  end.

(** The byte strings handed to [VersionedTransaction.deserialize]. *)
Fixpoint deserialized (evs : list Event) : list Buffer :=
  match evs with
  | [] => []
  | EvDeserialize bytes :: evs' => bytes :: deserialized evs'
  | _ :: evs' => deserialized evs'
  end.

(** The form entry an optional link gives: one entry for a non-empty
    string, none otherwise. *)
Definition link_entry (link : option string) : option FormValue :=
  match link with
  | Some (String c s) => Some (FText (String c s))
  | Some EmptyString => None
  | None => None
  end.

(** Upload, key generation, build, deserialization, signing and
    broadcast answer as [r] says: the transaction is with the node, the
    confirmation is still to come. *)
Definition broadcast_accepted (E : Env) (this : Client) (options : DeployOptions)
  (h : History) (r : DeployRun) : Prop :=
  let evs := deploy_run_calls E this options r in
  axios_post_form E h (String.append baseUrl "/ipfs")
                  (metadata_form E (metadata options))
    = Ok {| resp_metadataUri := Some (run_uri r) |} /\
  str_truthy (run_uri r) = true /\
  Keypair_generate E (h ++ firstn 1 evs) = run_mint r /\
  axios_post_json E (h ++ firstn 2 evs) (String.append baseUrl "/trade-local")
                  (create_request this options (run_uri r) (run_mint r))
    = Ok (Some (run_data r)) /\
  str_truthy (run_data r) = true /\
  VersionedTransaction_deserialize E (Buffer_from_base64 E (run_data r))
    = Ok (run_tx r) /\
  VersionedTransaction_sign E (run_tx r) [wallet this; run_mint r]
    = Ok (run_signed r) /\
  sendTransaction (connection this) (h ++ firstn 5 evs) (run_signed r)
                  send_options_with_retries
    = Ok (run_signature r).

(** ** More concrete worlds *)

Module Cases.

(** A node that accepts the broadcast and then fails to confirm. *)
Definition deaf_node : Connection :=
  {| sendTransaction := fun _ _ _ => Ok "5igNature";
     confirmTransaction := fun _ _ _ => Throw (Error "block height exceeded") |}.

Definition deaf_client : Client :=
  {| connection := deaf_node; wallet := Scenario.wallet_key |}.

(** A world whose trade-construction endpoint answers [body]. *)
Definition builder (body : option string) : Env :=
  {| JSON_stringify := Scenario.print;
     Buffer_from_base64 := Buffer_from_base64 Scenario.good_world;
     axios_post_form := axios_post_form Scenario.good_world;
     axios_post_json := fun _ _ _ => Ok body;
     Keypair_generate := Scenario.fresh_key;
     VersionedTransaction_deserialize :=
       VersionedTransaction_deserialize Scenario.good_world;
     VersionedTransaction_sign := VersionedTransaction_sign Scenario.good_world |}.

End Cases.

(** ** The calls outside [pumpportal.ts] *)

Module Outside.

(** *** The OpenAI API, as far as the code uses it *)

(** The body of [client.images.generate]. *)
Record ImagesRequest : Type := mkImagesRequest {
  img_model : string;
  img_prompt : string;
  img_n : number;
  img_size : string;
  img_quality : string;
  img_response_format : string
}.

(** One entry of [response.data]. *)
Record ImageData : Type := mkImageData {
  img_url : option string;
  b64_json : option string;
  revised_prompt : option string
}.

Record ImagesResponse : Type := mkImagesResponse {
  data : option (list ImageData)
}.

Record ChatMessage : Type := mkChatMessage {
  role : string;
  content : string
}.

(** The body of [client.chat.completions.create]. *)
Record ChatRequest : Type := mkChatRequest {
  chat_model : string;
  messages : list ChatMessage;
  max_tokens : number
}.

(** [choices[i].message], whose [content] is [string | null]. *)
Record ChoiceMessage : Type := mkChoiceMessage {
  msg_content : option string
}.

Record Choice : Type := mkChoice {
  message : option ChoiceMessage
}.

Record ChatCompletion : Type := mkChatCompletion {
  choices : list Choice
}.

(** *** The log of all external calls *)

Inductive Call : Type :=
| Pipeline (ev : Event)
| ImagesGenerate (request : ImagesRequest)
| WriteFile (path : string) (bytes : Buffer)
| ChatCreate (request : ChatRequest)
| GetVersion
| GetBalance (pubkey : PublicKey).

Definition Log : Type := list Call.

(** The calls of the pump.fun pipeline in a log. *)
Fixpoint pipeline_calls (log : Log) : History :=
  match log with
  | [] => []
  | Pipeline ev :: log' => ev :: pipeline_calls log'
  | _ :: log' => pipeline_calls log'
  end.

(** The files written. *)
Fixpoint files_written (log : list Call) : list (string * Buffer) :=
  match log with
  | [] => []
  | WriteFile path bytes :: log' => (path, bytes) :: files_written log'
  | _ :: log' => files_written log'
  end.

(** The image requests made. *)
Fixpoint image_requests (log : list Call) : list ImagesRequest :=
  match log with
  | [] => []
  | ImagesGenerate request :: log' => request :: image_requests log'
  | _ :: log' => image_requests log'
  end.

(** The chat requests made. *)
Fixpoint chat_requests (log : list Call) : list ChatRequest :=
  match log with
  | [] => []
  | ChatCreate request :: log' => request :: chat_requests log'
  | _ :: log' => chat_requests log'
  end.

(** The balance look-ups made. *)
Fixpoint balance_lookups (log : list Call) : list PublicKey :=
  match log with
  | [] => []
  | GetBalance pubkey :: log' => pubkey :: balance_lookups log'
  | _ :: log' => balance_lookups log'
  end.

(** *** The monad of the methods outside the pipeline *)

Definition IO (X : Type) : Type := Log -> Result X * Log.

Definition io_ret {X : Type} (x : X) : IO X := fun log => (Ok x, log).

Definition io_throw {X : Type} (e : exn) : IO X := fun log => (Throw e, log).

Definition io_bind {X Y : Type} (c : IO X) (k : X -> IO Y) : IO Y :=
  fun log =>
    match c log with
    | (Ok x, log') => k x log'
    | (Throw e, log') => (Throw e, log')
    end.

Notation "x <-- c ;; k" := (io_bind c (fun x => k))
  (at level 100, c at next level, right associativity).

(** [try { body } catch (error) { handler }]. *)
Definition io_try {X : Type} (body : IO X) (handler : exn -> IO X) : IO X :=
  fun log =>
    match body log with
    | (Ok x, log') => (Ok x, log')
    | (Throw e, log') => handler e log'
    end.

(** An external call, answered from the log before it and appended. *)
Definition io_call {X : Type} (c : Call) (answer : Log -> Result X) : IO X :=
  fun log => (answer log, log ++ [c]).

(** A library call that leaves no trace. *)
Definition io_pure {X : Type} (r : Result X) : IO X := fun log => (r, log).

(** A method of [PumpPortalClient] run from here: its oracles see the
    pipeline calls made so far, and its calls join the log. *)
Definition pipeline {X : Type} (c : M X) : IO X :=
  fun log =>
    let h := pipeline_calls log in
    (fst (c h), log ++ map Pipeline (calls c h)).

(** The calls a computation made when started at [log]. *)
Definition io_calls {X : Type} (c : IO X) (log : Log) : list Call :=
  skipn (List.length log) (snd (c log)).

(** *** The oracles *)

(** [client: OpenAI]. *)
Record OpenAIClient : Type := mkOpenAIClient {
  images_generate : Log -> ImagesRequest -> Result ImagesResponse;
  chat_completions_create : Log -> ChatRequest -> Result ChatCompletion
}.

(** The methods of the [Connection] that [HeliusClient] calls itself. *)
Record Rpc : Type := mkRpc {
  getVersion : Log -> Result value;
  getBalance : Log -> PublicKey -> Result number
}.

(** [writeFileSync] of [fs] and [new PublicKey(address)] of
    [@solana/web3.js]. *)
Record Host : Type := mkHost {
  writeFileSync : Log -> string -> Buffer -> Result unit;
  PublicKey_new : string -> Result PublicKey
}.

(** [s.endsWith(suffix)]. *)
Definition endsWith (s suffix : string) : bool :=
  let len := String.length s in
  let n := String.length suffix in
  if Nat.leb n len then String.eqb (substring (len - n) n s) suffix else false.

End Outside.

(** ** [src/ai/generator.ts] *)

Module Generator.

Import Outside.

Inductive Quality : Type := low | medium | high.

Inductive Size : Type := size_1024x1024 | size_1024x1792 | size_1792x1024.

Inductive Format : Type := png | jpeg | webp.

Definition size_name (s : Size) : string :=
  match s with
  | size_1024x1024 => "1024x1024"
  | size_1024x1792 => "1024x1792"
  | size_1792x1024 => "1792x1024"
  end.

Definition format_name (f : Format) : string :=
  match f with
  | png => "png"
  | jpeg => "jpeg"
  | webp => "webp"
  end.

(** [const qualityMap = { low: 'low', medium: 'medium', high: 'high' }]. *)
Definition qualityMap (q : Quality) : string :=
  match q with
  | low => "low"
  | medium => "medium"
  | high => "high"
  end.

(** [interface GenerateOptions]. *)
Record GenerateOptions : Type := mkGenerateOptions {
  prompt : string;
  quality : option Quality;
  size : option Size;
  format : option Format;
  outputPath : option string
}.

(** [class ImageGenerator], after its constructor ran. *)
Record ImageGenerator : Type := mkImageGenerator {
  client : OpenAIClient;
  defaultQuality : Quality;
  defaultSize : Size;
  defaultFormat : Format
}.

Definition num_1 : number := Eval cbv in of_Z 1.
Definition num_500 : number := Eval cbv in of_Z 500.

(** [response.data?.[0]]. *)
Definition first_image (response : ImagesResponse) : option ImageData :=
  match data response with
  | Some (imageData :: _) => Some imageData
  | Some [] => None
  | None => None
  end.

(** [imageData?.b64_json]. *)
Definition image_b64 (imageData : option ImageData) : option string :=
  match imageData with
  | Some d => b64_json d
  | None => None
  end.

(** [options.outputPath.endsWith(`.${format}`) ? options.outputPath
    : `${options.outputPath}.${format}`]. *)
Definition output_file (outputPath : string) (format : Format) : string :=
  if endsWith outputPath (String.append "." (format_name format)) then outputPath
  else String.append outputPath (String.append "." (format_name format)).

Section Methods.

Variable E : Env.
Variable host : Host.

(** [async generate(options: GenerateOptions): Promise<GeneratedImage>]. *)
Definition generate (this : ImageGenerator) (options : GenerateOptions)
  : IO Agent.GeneratedImage :=
  let quality := default_param (quality options) (defaultQuality this) in
  let size := default_param (size options) (defaultSize this) in
  let format := default_param (format options) (defaultFormat this) in
  let request :=
    {| img_model := "gpt-image-1";
       img_prompt := prompt options;
       img_n := num_1;
       img_size := size_name size;
       img_quality := qualityMap quality;
       img_response_format := "b64_json" |} in
  response <-- io_call (ImagesGenerate request)
                       (fun log => images_generate (client this) log request) ;;
  let imageData := first_image response in
  match imageData, image_b64 imageData with
  | Some imageData, Some b64 =>
      if negb (str_truthy b64) then
        io_throw (Error "No image data returned from OpenAI")
      else
        let result :=
          {| Agent.url := or_string (img_url imageData) EmptyString;
             Agent.base64 := b64;
             Agent.prompt := prompt options;
             Agent.revisedPrompt := revised_prompt imageData;
             Agent.filePath := None |} in
        match outputPath options with
        | Some path =>
            if str_truthy path then
              let buffer := Buffer_from_base64 E b64 in
              let filePath := output_file path format in
              _ <-- io_call (WriteFile filePath buffer)
                            (fun log => writeFileSync host log filePath buffer) ;;
              io_ret {| Agent.url := Agent.url result;
                        Agent.base64 := Agent.base64 result;
                        Agent.prompt := Agent.prompt result;
                        Agent.revisedPrompt := Agent.revisedPrompt result;
                        Agent.filePath := Some filePath |}
            else io_ret result
        | None => io_ret result
        end
  | _, _ => io_throw (Error "No image data returned from OpenAI")
  end.

End Methods.

(** The double quote character. *)
Definition quote : string := String (ascii_of_nat 34) EmptyString.

(** The system message of [enhancePrompt]. *)
Definition enhance_instructions : string :=
  String.concat EmptyString
    [ "You are an expert at crafting prompts for AI image generation. 
Your task is to enhance the given prompt to create more vivid, detailed, and artistic images.
Focus on:
- Adding artistic style references (e.g., ";
      quote; "in the style of vaporwave"; quote; ", ";
      quote; "pixel art aesthetic"; quote; ")
- Enhancing visual details (lighting, colors, composition)
- Adding mood and atmosphere
- Keeping the core concept intact
Return only the enhanced prompt, nothing else." ].

(** [completion.choices[0]?.message?.content]. *)
Definition first_content (completion : ChatCompletion) : option string :=
  match choices completion with
  | choice :: _ =>
      match message choice with
      | Some m => msg_content m
      | None => None
      end
  | [] => None
  end.

(** [async enhancePrompt(prompt: string): Promise<string>]. *)
Definition enhancePrompt (this : ImageGenerator) (prompt : string) : IO string :=
  let request :=
    {| chat_model := "gpt-4o-mini";
       messages := [ {| role := "system"; content := enhance_instructions |};
                     {| role := "user"; content := prompt |} ];
       max_tokens := num_500 |} in
  completion <-- io_call (ChatCreate request)
                         (fun log => chat_completions_create (client this) log request) ;;
  io_ret (or_string (first_content completion) prompt).

End Generator.

(** ** [src/solana/helius.ts], the methods the agent's checks call *)

Module Helius.

Import Outside.

(** [class HeliusClient], after its constructor ran; [rpc] holds the
    two methods of [connection] that the class calls itself. *)
Record HeliusClient : Type := mkHeliusClient {
  connection : Connection;
  rpc : Rpc;
  apiKey : string;
  network : string
}.

(** [LAMPORTS_PER_SOL] of [@solana/web3.js]. *)
Definition LAMPORTS_PER_SOL : number := Eval cbv in of_Z 1000000000.

(** [getConnection()]. *)
Definition getConnection (this : HeliusClient) : Connection := connection this.

Section Methods.

Variable host : Host.

(** [async getBalance(address: string): Promise<number>]. *)
Definition getBalance (this : HeliusClient) (address : string) : IO number :=
  pubkey <-- io_pure (PublicKey_new host address) ;;
  balance <-- io_call (GetBalance pubkey)
                      (fun log => Outside.getBalance (rpc this) log pubkey) ;;
  io_ret (SFdiv prec emax balance LAMPORTS_PER_SOL).

(** [async healthCheck(): Promise<boolean>]. *)
Definition healthCheck (this : HeliusClient) : IO bool :=
  io_try
    (version <-- io_call GetVersion (fun log => getVersion (rpc this) log) ;;
     io_ret (truthy version))
    (fun _ => io_ret false).

End Methods.

End Helius.

(** ** [src/agent.ts], the methods around the pipeline *)

Module Launch.

Import Outside.

(** [class TurnipAgent] with all its fields. *)
Record TurnipAgent : Type := mkTurnipAgent {
  core : Agent.TurnipAgent;
  imageGenerator : Generator.ImageGenerator;
  helius : Helius.HeliusClient
}.

(** [interface LaunchOptions] of [index.ts]. *)
Record LaunchOptions : Type := mkLaunchOptions {
  prompt : string;
  name : string;
  ticker : string;
  description : option string;
  twitter : option string;
  telegram : option string;
  website : option string;
  devBuyAmount : option number;
  slippage : option number
}.

(** The [image] of a [LaunchResult]. *)
Record LaunchImage : Type := mkLaunchImage {
  image_url : string;
  ipfsUrl : string
}.

(** The [token] of a [LaunchResult].  [mint], [signature] and [pumpUrl]
    are filled with [deployResult.mint!] and the like: the assertion
    checks nothing, so they hold whatever the deploy record holds. *)
Record LaunchToken : Type := mkLaunchToken {
  token_mint : option string;
  token_name : string;
  token_ticker : string;
  token_signature : option string;
  token_pumpUrl : option string
}.

(** [interface LaunchResult] of [index.ts]. *)
Record LaunchResult : Type := mkLaunchResult {
  launched : bool;
  launch_image : option LaunchImage;
  launch_token : option LaunchToken;
  launch_error : option string
}.

(** The result of [healthCheck]. *)
Record Health : Type := mkHealth {
  openai : bool;
  helius_ok : bool;
  wallet_ok : bool;
  balance : number
}.

(** The options [launch] hands to [deploy]. *)
Definition launch_deploy_options (image : Agent.GeneratedImage) (options : LaunchOptions)
  : Agent.Options :=
  {| Agent.image := image;
     Agent.name := name options;
     Agent.ticker := ticker options;
     Agent.description := description options;
     Agent.twitter := twitter options;
     Agent.telegram := telegram options;
     Agent.website := website options;
     Agent.opt_devBuyAmount := devBuyAmount options;
     Agent.opt_slippage := slippage options |}.

Section Methods.

Variable E : Env.
Variable host : Host.

(** [async generate(options)]. *)
Definition generate (this : TurnipAgent) (options : Generator.GenerateOptions)
  : IO Agent.GeneratedImage :=
  Generator.generate E host (imageGenerator this) options.

(** [async enhancePrompt(prompt)]. *)
Definition enhancePrompt (this : TurnipAgent) (prompt : string) : IO string :=
  Generator.enhancePrompt (imageGenerator this) prompt.

(** [async deploy(options)], run from here. *)
Definition deploy (this : TurnipAgent) (options : Agent.Options) : IO DeployResult :=
  pipeline (Agent.deploy E (core this) options).

(** [async launch(options: LaunchOptions): Promise<LaunchResult>]. *)
Definition launch (this : TurnipAgent) (options : LaunchOptions) : IO LaunchResult :=
  io_try
    (image <-- Generator.generate E host (imageGenerator this)
                 {| Generator.prompt := prompt options;
                    Generator.quality := None;
                    Generator.size := None;
                    Generator.format := None;
                    Generator.outputPath := None |} ;;
     deployResult <-- deploy this (launch_deploy_options image options) ;;
     if negb (success deployResult) then
       io_ret {| launched := false;
                 launch_image := None;
                 launch_token := None;
                 launch_error := error deployResult |}
     else
       io_ret {| launched := true;
                 launch_image :=
                   Some {| image_url := or_string (Some (Agent.url image)) EmptyString;
                           ipfsUrl := or_string (metadataUri deployResult) EmptyString |};
                 launch_token :=
                   Some {| token_mint := mint deployResult;
                           token_name := name options;
                           token_ticker := ticker options;
                           token_signature := signature deployResult;
                           token_pumpUrl := pumpUrl deployResult |};
                 launch_error := None |})
    (fun error =>
       io_ret {| launched := false;
                 launch_image := None;
                 launch_token := None;
                 launch_error := Some (catch_message error) |}).

(** [async getBalance(): Promise<number>]. *)
Definition getBalance (this : TurnipAgent) : IO number :=
  Helius.getBalance host (helius this) (Agent.getWalletAddress (core this)).

(** The first [try] of [healthCheck]: [heliusOk] and [balance] as they
    stand after it.  [balance] is assigned last, so a throw leaves it
    at its initial 0. *)
Definition check_helius (this : TurnipAgent) : IO (bool * number) :=
  io_try
    (heliusOk <-- Helius.healthCheck (helius this) ;;
     if heliusOk then
       balance <-- getBalance this ;;
       io_ret (heliusOk, balance)
     else io_ret (heliusOk, num_0))
    (fun _ => io_ret (false, num_0)).

(** The second [try] of [healthCheck]: [openaiOk] after it. *)
Definition check_openai (this : TurnipAgent) : IO bool :=
  io_try
    (_ <-- enhancePrompt this "test" ;;
     io_ret true)
    (fun _ => io_ret false).

(** [async healthCheck()]. *)
Definition healthCheck (this : TurnipAgent) : IO Health :=
  checked <-- check_helius this ;;
  let heliusOk := fst checked in
  let balance := snd checked in
  openaiOk <-- check_openai this ;;
  io_ret {| openai := openaiOk;
            helius_ok := heliusOk;
            wallet_ok := heliusOk && SFltb num_0 balance;
            balance := balance |}.

End Methods.

End Launch.

(** ** The constructor of [PumpPortalClient] *)

Module Construct.

(** [bs58.decode] and [Keypair.fromSecretKey]. *)
Record KeyLibrary : Type := mkKeyLibrary {
  bs58_decode : string -> Result Buffer;
  Keypair_fromSecretKey : Buffer -> Result Keypair
}.

(** [constructor(config: { connection: Connection; privateKey: string })];
    a throw is the constructor's exception. *)
Definition new_PumpPortalClient (lib : KeyLibrary) (connection : Connection)
  (privateKey : string) : Result Client :=
  let parsed :=
    match bs58_decode lib privateKey with
    | Ok secretKey => Keypair_fromSecretKey lib secretKey
    | Throw e => Throw e
    end in
  match parsed with
  | Ok wallet => Ok {| PumpPortal.connection := connection; wallet := wallet |}
  | Throw _ => Throw (Error "Invalid wallet private key. Must be base58 encoded.")
  end.

End Construct.

(** ** Concrete worlds around the pipeline *)

Module Studio.

Import Outside.

Definition picture : ImageData :=
  {| img_url := None;
     b64_json := Some "iVBORw0KGgo=";
     revised_prompt := Some "a turnip in space" |}.

(** An OpenAI client that answers every image request with [images]
    and every chat request with [reply]. *)
Definition studio (images : Result ImagesResponse) (reply : Result ChatCompletion)
  : OpenAIClient :=
  {| images_generate := fun _ _ => images;
     chat_completions_create := fun _ _ => reply |}.

Definition one_picture : Result ImagesResponse :=
  Ok {| data := Some [picture] |}.

Definition silence : Result ChatCompletion :=
  Ok {| choices := [] |}.

Definition painter : Generator.ImageGenerator :=
  {| Generator.client := studio one_picture silence;
     Generator.defaultQuality := Generator.high;
     Generator.defaultSize := Generator.size_1024x1024;
     Generator.defaultFormat := Generator.png |}.

(** A generator whose image requests are refused. *)
Definition idle_painter : Generator.ImageGenerator :=
  {| Generator.client := studio (Throw (Error "Billing hard limit has been reached")) silence;
     Generator.defaultQuality := Generator.high;
     Generator.defaultSize := Generator.size_1024x1024;
     Generator.defaultFormat := Generator.png |}.

(** A generator that gets an empty list of images. *)
Definition blank_painter : Generator.ImageGenerator :=
  {| Generator.client := studio (Ok {| data := Some [] |}) silence;
     Generator.defaultQuality := Generator.high;
     Generator.defaultSize := Generator.size_1024x1024;
     Generator.defaultFormat := Generator.png |}.

Definition disk : Host :=
  {| writeFileSync := fun _ _ _ => Ok tt;
     PublicKey_new := fun address => Ok {| toBase58 := address |} |}.

Definition to_file (path : string) : Generator.GenerateOptions :=
  {| Generator.prompt := "a turnip";
     Generator.quality := None;
     Generator.size := None;
     Generator.format := None;
     Generator.outputPath := Some path |}.

(** A node that reports its version and a balance of 2 SOL. *)
Definition ledger : Rpc :=
  {| getVersion := fun _ => Ok (VObj [("solana-core", VStr "1.18.0")]);
     getBalance := fun _ _ => Ok (of_Z 2000000000) |}.

Definition helius : Helius.HeliusClient :=
  {| Helius.connection := Scenario.node VNull;
     Helius.rpc := ledger;
     Helius.apiKey := "key";
     Helius.network := "mainnet-beta" |}.

Definition agent (generator : Generator.ImageGenerator) : Launch.TurnipAgent :=
  {| Launch.core := Scenario.agent;
     Launch.imageGenerator := generator;
     Launch.helius := helius |}.

Definition cosmic : Launch.LaunchOptions :=
  {| Launch.prompt := "a turnip";
     Launch.name := "Cosmic Turnip";
     Launch.ticker := "CTRNP";
     Launch.description := None;
     Launch.twitter := None;
     Launch.telegram := None;
     Launch.website := None;
     Launch.devBuyAmount := None;
     Launch.slippage := None |}.

(** The image [painter] returns for [cosmic]. *)
Definition painted : Agent.GeneratedImage :=
  {| Agent.url := EmptyString;
     Agent.base64 := "iVBORw0KGgo=";
     Agent.prompt := "a turnip";
     Agent.revisedPrompt := Some "a turnip in space";
     Agent.filePath := None |}.

(** The image request [launch] makes for [cosmic]. *)
Definition cosmic_request : ImagesRequest :=
  {| img_model := "gpt-image-1";
     img_prompt := "a turnip";
     img_n := Generator.num_1;
     img_size := "1024x1024";
     img_quality := "high";
     img_response_format := "b64_json" |}.

Definition key_library : Construct.KeyLibrary :=
  {| Construct.bs58_decode :=
       fun s => match s with
                | EmptyString => Throw (Error "Non-base58 character")
                | String _ _ => Ok (map byte_of_ascii (list_ascii_of_string s))
                end;
     Construct.Keypair_fromSecretKey :=
       fun bytes => Ok {| publicKey := {| toBase58 := "Wa11et" |}; secretKey := bytes |} |}.

End Studio.

(** ** The records [launch] returns *)

(** The failure record of [launch] with a given [error]. *)
Definition launch_failure (error : option string) : Launch.LaunchResult :=
  {| Launch.launched := false;
     Launch.launch_image := None;
     Launch.launch_token := None;
     Launch.launch_error := error |}.

(** The success record [launch] builds from the generated image and the
    record of [deploy]. *)
Definition launch_success (options : Launch.LaunchOptions)
  (image : Agent.GeneratedImage) (deployed : DeployResult) : Launch.LaunchResult :=
  {| Launch.launched := true;
     Launch.launch_image :=
       Some {| Launch.image_url := Agent.url image;
               Launch.ipfsUrl := match metadataUri deployed with
                                 | Some uri => uri
                                 | None => EmptyString
                                 end |};
     Launch.launch_token :=
       Some {| Launch.token_mint := mint deployed;
               Launch.token_name := Launch.name options;
               Launch.token_ticker := Launch.ticker options;
               Launch.token_signature := signature deployed;
               Launch.token_pumpUrl := pumpUrl deployed |};
     Launch.launch_error := None |}.

(** * Properties *)

(** ** The monad *)

Lemma try_catch_returns {A : Type} (body : M A) (handler : exn -> M A) (h : History) :
  (forall e h', exists a h'', handler e h' = (Ok a, h'')) ->
  exists a h', try_catch body handler h = (Ok a, h').
Proof.
  intros Hh. unfold try_catch.
  destruct (body h) as [[a | e] h'].
  - exists a, h'. reflexivity.
  - apply Hh.
Qed.

Lemma try_catch_throw {A : Type} (body : M A) (handler : exn -> M A)
  (h h' : History) (e : exn) :
  body h = (Throw e, h') -> try_catch body handler h = handler e h'.
Proof. intros Hb. unfold try_catch. rewrite Hb. reflexivity. Qed.

Lemma try_catch_ok {A : Type} (body : M A) (handler : exn -> M A)
  (h h' : History) (a : A) :
  body h = (Ok a, h') -> try_catch body handler h = (Ok a, h').
Proof. intros Hb. unfold try_catch. rewrite Hb. reflexivity. Qed.

Lemma calls_app {A : Type} (c : M A) (h : History) (evs : list Event) :
  snd (c h) = h ++ evs -> calls c h = evs.
Proof.
  intros Hs. unfold calls. rewrite Hs.
  rewrite skipn_app, skipn_all, Nat.sub_diag. reflexivity.
Qed.

(** ** Proof steps shared by the runs *)

Ltac run_body :=
  unfold deploy_body, buy_body, sell_body, uploadMetadata, post_form, generate,
    post_json, Buffer_from, deserialize, sign, send, confirm, no_data,
    bind, call, ret, throw; cbn [fst snd].

(** Case analysis on the innermost scrutinee of a [match]. *)
Ltac split_match :=
  match goal with
  | |- context [match ?x with _ => _ end] =>
      lazymatch x with
      | context [match _ with _ => _ end] => fail
      | _ => destruct x eqn:?
      end
  | H : context [match ?x with _ => _ end] |- _ =>
      lazymatch x with
      | context [match _ with _ => _ end] => fail
      | _ => destruct x eqn:?
      end
  end.

(** The calls of a run whose history has been computed. *)
Ltac read_calls :=
  cbn [fst snd]; rewrite <- ?app_assoc; cbn [app];
  try (rewrite skipn_app, skipn_all, Nat.sub_diag; cbn [skipn app]);
  try (rewrite <- (app_nil_r (A := Event)) at 1;
       rewrite skipn_app, skipn_all, Nat.sub_diag; cbn [skipn app]).

(** Every path of a method, one goal per path. *)
Ltac all_paths :=
  unfold calls, deploy, buy, sell, try_catch, deploy_catch, trade_catch;
  run_body; repeat split_match.

(** ** [deploy] *)

Section DeployFacts.

Variable E : Env.
Variable this : Client.
Variable options : DeployOptions.

(** [deploy] is its [try] block, with a throw turned into the failure
    record of the [catch] block. *)
Lemma deploy_unfold (h : History) :
  deploy E this options h =
  match deploy_body E this options h with
  | (Ok r, h') => (Ok r, h')
  | (Throw e, h') => (Ok (deploy_failure (catch_message e)), h')
  end.
Proof. reflexivity. Qed.

(** When every stage succeeds, the [try] block ends at the check of the
    on-chain error. *)
Lemma deploy_body_stages (h : History) (r : DeployRun) :
  stages_succeed E this options h r ->
  deploy_body E this options h =
  ( if truthy (err (run_confirmation r)) then
      Throw (Error (String.append "Transaction failed: "
                      (JSON_stringify E (err (run_confirmation r)))))
    else Ok (deploy_success r),
    h ++ deploy_run_calls E this options r ).
Proof.
  unfold stages_succeed, deploy_run_calls; cbn [firstn].
  intros (Hup & Huri & Hgen & Hpost & Hdata & Hde & Hsg & Hsend & Hconf).
  run_body.
  rewrite Hup; cbn [resp_metadataUri]. rewrite Huri; cbn [negb].
  rewrite Hgen.
  rewrite <- ?app_assoc; cbn [app].
  rewrite Hpost. rewrite Hdata; cbn [negb].
  rewrite Hde, Hsg.
  rewrite <- ?app_assoc; cbn [app].
  unfold send_options_with_retries in Hsend, Hconf |- *.
  rewrite Hsend.
  rewrite <- ?app_assoc; cbn [app].
  rewrite Hconf.
  rewrite <- ?app_assoc; cbn [app].
  destruct (truthy (err (run_confirmation r))); reflexivity.
Qed.

(** Conversely, a [try] block that returns went through every stage. *)
Lemma deploy_body_ok_inv (h h' : History) (res : DeployResult) :
  deploy_body E this options h = (Ok res, h') ->
  exists r,
    stages_succeed E this options h r /\
    truthy (err (run_confirmation r)) = false /\
    res = deploy_success r /\
    h' = h ++ deploy_run_calls E this options r.
Proof.
  run_body. intros Hrun.
  repeat (split_match; try discriminate).
  injection Hrun as <- <-.
  repeat match goal with
  | H : (_, _) = (_, _) |- _ => injection H as ? ?
  | a : IpfsResponse |- _ => destruct a; cbn [resp_metadataUri] in *
  end; subst.
  match goal with
  | _ : confirmTransaction _ _ ?sg _ = Ok ?c,
    _ : VersionedTransaction_sign _ ?tx _ = Ok ?stx,
    _ : axios_post_json _ _ _ (create_request _ _ ?uri ?k) = Ok (Some ?d) |- _ =>
      exists {| run_uri := uri; run_mint := k; run_data := d; run_tx := tx;
                run_signed := stx; run_signature := sg; run_confirmation := c |}
  end.
  unfold stages_succeed, deploy_run_calls, deploy_success; cbn [firstn].
  cbn [run_uri run_mint run_data run_tx run_signed run_signature run_confirmation].
  rewrite <- ?app_assoc; cbn [app].
  rewrite <- ?app_assoc in *; cbn [app] in *.
  repeat match goal with
  | H : negb ?b = false |- _ => apply negb_false_iff in H
  end.
  repeat split; auto.
Qed.

(** The trade-construction requests of a [deploy]: none when the upload
    throws, else exactly the create request for the uploaded URI and
    the keypair generated right after the upload. *)
Lemma deploy_requests (h : History) :
  trade_requests (calls (deploy E this options) h) =
  match uploadMetadata E (metadata options) h with
  | (Ok uri, h1) => [create_request this options uri (Keypair_generate E h1)]
  | (Throw _, _) => []
  end.
Proof.
  all_paths; read_calls; reflexivity.
Qed.

(** The keypairs a [deploy] generates: none when the upload throws,
    else one, by a call to the generator right after the upload. *)
Lemma deploy_generated (h : History) :
  generated (calls (deploy E this options) h) =
  match uploadMetadata E (metadata options) h with
  | (Ok _, h1) => [Keypair_generate E h1]
  | (Throw _, _) => []
  end.
Proof.
  all_paths; read_calls; reflexivity.
Qed.

(** [deploy] always starts with the upload of the metadata form, and
    uploads once. *)
Lemma deploy_uploads (h : History) :
  uploads (calls (deploy E this options) h) =
  [metadata_form E (metadata options)].
Proof.
  all_paths; read_calls; reflexivity.
Qed.

(** Every broadcast of [deploy] passes the three options. *)
Lemma deploy_broadcasts (h : History) :
  Forall (eq send_options_with_retries)
         (broadcasts (calls (deploy E this options) h)).
Proof.
  all_paths; read_calls; repeat constructor.
Qed.

(** Every confirmation of [deploy] asks for ["confirmed"]. *)
Lemma deploy_confirmations (h : History) :
  Forall (eq "confirmed") (confirmations (calls (deploy E this options) h)).
Proof.
  all_paths; read_calls; repeat constructor.
Qed.

(** A throwing upload is the only call of its [deploy]. *)
Lemma deploy_upload_throw (h hu : History) (e : exn) :
  uploadMetadata E (metadata options) h = (Throw e, hu) ->
  deploy E this options h = (Ok (deploy_failure (catch_message e)), hu) /\
  calls (deploy E this options) h =
  [EvPostForm (String.append baseUrl "/ipfs") (metadata_form E (metadata options))].
Proof.
  intros Hup.
  assert (Hd : deploy E this options h = (Ok (deploy_failure (catch_message e)), hu)).
  { unfold deploy. erewrite try_catch_throw.
    - reflexivity.
    - unfold deploy_body, bind. rewrite Hup. reflexivity. }
  split; [exact Hd|].
  apply calls_app. rewrite Hd. cbn [snd].
  revert Hup. run_body. intros Hup.
  repeat (split_match; try discriminate); injection Hup as _ <-; reflexivity.
Qed.

End DeployFacts.

(** ** [buy] and [sell] *)

Section TradeFacts.

Variable E : Env.
Variable this : Client.
Variable mint : string.
Variable amount : number.
Variable slippage : option number.

Lemma buy_unfold (h : History) :
  buy E this mint amount slippage h =
  match buy_body E this mint amount (default_param slippage num_10) h with
  | (Ok r, h') => (Ok r, h')
  | (Throw e, h') => (Ok (trade_failure (catch_message e)), h')
  end.
Proof. reflexivity. Qed.

Lemma sell_unfold (h : History) :
  sell E this mint amount slippage h =
  match sell_body E this mint amount (default_param slippage num_10) h with
  | (Ok r, h') => (Ok r, h')
  | (Throw e, h') => (Ok (trade_failure (catch_message e)), h')
  end.
Proof. reflexivity. Qed.

(** [buy] posts one request, first thing, whatever happens next. *)
Lemma buy_requests (h : History) :
  trade_requests (calls (buy E this mint amount slippage) h) =
  [trade_request this buy_action "true" mint amount (default_param slippage num_10)].
Proof.
  all_paths; read_calls; reflexivity.
Qed.

Lemma sell_requests (h : History) :
  trade_requests (calls (sell E this mint amount slippage) h) =
  [trade_request this sell_action "false" mint amount (default_param slippage num_10)].
Proof.
  all_paths; read_calls; reflexivity.
Qed.

(** Every broadcast of [buy] and [sell] passes two options and no
    [maxRetries]. *)
Lemma buy_broadcasts (h : History) :
  Forall (eq send_options_no_retries)
         (broadcasts (calls (buy E this mint amount slippage) h)).
Proof.
  all_paths; read_calls; repeat constructor.
Qed.

Lemma sell_broadcasts (h : History) :
  Forall (eq send_options_no_retries)
         (broadcasts (calls (sell E this mint amount slippage) h)).
Proof.
  all_paths; read_calls; repeat constructor.
Qed.

Lemma buy_confirmations (h : History) :
  Forall (eq "confirmed")
         (confirmations (calls (buy E this mint amount slippage) h)).
Proof.
  all_paths; read_calls; repeat constructor.
Qed.

Lemma sell_confirmations (h : History) :
  Forall (eq "confirmed")
         (confirmations (calls (sell E this mint amount slippage) h)).
Proof.
  all_paths; read_calls; repeat constructor.
Qed.

(** Once the broadcast returned a signature and the confirmation call
    returned, [buy] reports success: the confirmation's [err] is not
    read. *)
Lemma buy_ignores_err (h : History) (data : string)
  (tx signed : VersionedTransaction) (sig : string) (c : Confirmation) :
  let request :=
    trade_request this buy_action "true" mint amount (default_param slippage num_10) in
  let evs :=
    [ EvPostJson (String.append baseUrl "/trade-local") request;
      EvDeserialize (Buffer_from_base64 E data);
      EvSign tx [wallet this];
      EvSend signed send_options_no_retries;
      EvConfirm sig "confirmed" ] in
  axios_post_json E h (String.append baseUrl "/trade-local") request = Ok (Some data) ->
  VersionedTransaction_deserialize E (Buffer_from_base64 E data) = Ok tx ->
  VersionedTransaction_sign E tx [wallet this] = Ok signed ->
  sendTransaction (connection this) (h ++ firstn 3 evs) signed
                  send_options_no_retries = Ok sig ->
  confirmTransaction (connection this) (h ++ firstn 4 evs) sig "confirmed" = Ok c ->
  buy E this mint amount slippage h =
  (Ok {| trade_success := true; trade_signature := Some sig; trade_error := None |},
   h ++ evs).
Proof.
  cbn zeta. cbn [firstn]. intros Hpost Hde Hsg Hsend Hconf.
  unfold send_options_no_retries in *.
  unfold buy, try_catch. run_body.
  rewrite Hpost, Hde, Hsg. rewrite <- ?app_assoc; cbn [app].
  rewrite Hsend. rewrite <- ?app_assoc; cbn [app].
  rewrite Hconf. rewrite <- ?app_assoc; cbn [app].
  reflexivity.
Qed.

End TradeFacts.

(** ** The results of the pipeline *)

Lemma deploy_failure_closed (message : string) :
  closed_deploy_result (deploy_failure message).
Proof.
  split; cbn; [discriminate|]. intros _. repeat split; eauto.
Qed.

Lemma deploy_success_closed (r : DeployRun) :
  closed_deploy_result (deploy_success r).
Proof.
  split; cbn; [reflexivity | discriminate].
Qed.

Lemma trade_failure_closed (message : string) :
  closed_trade_result (trade_failure message).
Proof.
  split; cbn; [discriminate|]. intros _. repeat split; eauto.
Qed.

(** What [deploy] returns, path by path. *)
Lemma deploy_outcome (E : Env) (this : Client) (options : DeployOptions) (h : History) :
  exists res h',
    deploy E this options h = (Ok res, h') /\
    ((exists r, stages_succeed E this options h r /\
                truthy (err (run_confirmation r)) = false /\
                res = deploy_success r) \/
     (exists e hb, deploy_body E this options h = (Throw e, hb) /\
                   res = deploy_failure (catch_message e))).
Proof.
  rewrite deploy_unfold.
  destruct (deploy_body E this options h) as [[res | e] h'] eqn:Hb.
  - exists res, h'. split; [reflexivity|]. left.
    destruct (deploy_body_ok_inv _ _ _ _ _ _ Hb) as (r & Hs & Herr & Hres & _).
    exists r. auto.
  - exists (deploy_failure (catch_message e)), h'. split; [reflexivity|]. right.
    exists e, h'. auto.
Qed.

(** What [buy] returns: the success record with a signature, or the
    failure record of the exception its [try] block raised. *)
Lemma buy_outcome (E : Env) (this : Client) (mint : string) (amount : number)
  (slippage : option number) (h : History) :
  exists res h',
    buy E this mint amount slippage h = (Ok res, h') /\
    ((exists sig, res = {| trade_success := true;
                           trade_signature := Some sig;
                           trade_error := None |}) \/
     (exists e hb,
        buy_body E this mint amount (default_param slippage num_10) h = (Throw e, hb) /\
        res = trade_failure (catch_message e))).
Proof.
  rewrite buy_unfold.
  destruct (buy_body E this mint amount (default_param slippage num_10) h)
    as [[res | e] h'] eqn:Hb.
  - exists res, h'. split; [reflexivity|]. left.
    revert Hb. run_body. intros Hb.
    repeat (split_match; try discriminate).
    injection Hb as <- _. eauto.
  - exists (trade_failure (catch_message e)), h'. split; [reflexivity|]. right.
    exists e, h'. auto.
Qed.

Lemma sell_outcome (E : Env) (this : Client) (mint : string) (amount : number)
  (slippage : option number) (h : History) :
  exists res h',
    sell E this mint amount slippage h = (Ok res, h') /\
    ((exists sig, res = {| trade_success := true;
                           trade_signature := Some sig;
                           trade_error := None |}) \/
     (exists e hb,
        sell_body E this mint amount (default_param slippage num_10) h = (Throw e, hb) /\
        res = trade_failure (catch_message e))).
Proof.
  rewrite sell_unfold.
  destruct (sell_body E this mint amount (default_param slippage num_10) h)
    as [[res | e] h'] eqn:Hb.
  - exists res, h'. split; [reflexivity|]. left.
    revert Hb. run_body. intros Hb.
    repeat (split_match; try discriminate).
    injection Hb as <- _. eauto.
  - exists (trade_failure (catch_message e)), h'. split; [reflexivity|]. right.
    exists e, h'. auto.
Qed.

(** C3: when upload, build, deserialization, signing, broadcast and
    confirmation all succeed and the confirmation carries a null
    on-chain error, [deploy] returns the success record: [mint] is the
    (non-empty) base58 address of the keypair generated in this call,
    [signature] the (non-empty) broadcast signature, [metadataUri] the
    uploaded URI, and [pumpUrl] is "https://pump.fun/" followed by the
    mint address. *)
Theorem deploy_all_stages_succeed
  (E : Env) (this : Client) (options : DeployOptions) (h : History) (r : DeployRun) :
  stages_succeed E this options h r ->
  err (run_confirmation r) = VNull ->
  toBase58 (publicKey (run_mint r)) <> EmptyString ->
  run_signature r <> EmptyString ->
  exists res h' address,
    deploy E this options h = (Ok res, h') /\
    generated (calls (deploy E this options) h) = [run_mint r] /\
    address = toBase58 (publicKey (run_mint r)) /\
    success res = true /\
    mint res = Some address /\ address <> EmptyString /\
    signature res = Some (run_signature r) /\ run_signature r <> EmptyString /\
    metadataUri res = Some (run_uri r) /\
    pumpUrl res = Some (String.append "https://pump.fun/" address) /\
    error res = None.
Proof.
  intros Hs Hnull Haddr Hsig.
  pose proof (deploy_body_stages E this options h r Hs) as Hb.
  rewrite Hnull in Hb. cbn [truthy] in Hb.
  exists (deploy_success r), (h ++ deploy_run_calls E this options r),
         (toBase58 (publicKey (run_mint r))).
  assert (Hd : deploy E this options h =
               (Ok (deploy_success r), h ++ deploy_run_calls E this options r)).
  { unfold deploy. apply try_catch_ok. exact Hb. }
  split; [exact Hd|].
  split.
  { erewrite calls_app by (rewrite Hd; reflexivity). reflexivity. }
  cbn. repeat split; auto.
Qed.

Lemma deploy_all_stages_succeed_witness :
  exists res h' address,
    deploy Scenario.good_world (Scenario.client VNull)
           (Scenario.options (Some (of_Z 1)) (Some num_10)) [] = (Ok res, h') /\
    generated (calls (deploy Scenario.good_world (Scenario.client VNull)
                             (Scenario.options (Some (of_Z 1)) (Some num_10))) [])
      = [run_mint Scenario.good_run] /\
    address = toBase58 (publicKey (run_mint Scenario.good_run)) /\
    success res = true /\
    mint res = Some address /\ address <> EmptyString /\
    signature res = Some (run_signature Scenario.good_run) /\
    run_signature Scenario.good_run <> EmptyString /\
    metadataUri res = Some (run_uri Scenario.good_run) /\
    pumpUrl res = Some (String.append "https://pump.fun/" address) /\
    error res = None.
Proof.
  apply (deploy_all_stages_succeed Scenario.good_world (Scenario.client VNull)
           (Scenario.options (Some (of_Z 1)) (Some num_10)) [] Scenario.good_run).
  - repeat split; reflexivity.
  - reflexivity.
  - discriminate.
  - discriminate.
Defined.

(** C4: when [uploadMetadata] throws, the upload is the only external
    call of that [deploy]: no trade-construction request, no
    deserialization, no signing and no broadcast (nor confirmation) is
    made, no keypair is generated, and [deploy] returns the failure
    record carrying the message of the upload error. *)
Theorem upload_failure_stops_deploy
  (E : Env) (this : Client) (options : DeployOptions) (h hu : History) (e : exn) :
  uploadMetadata E (metadata options) h = (Throw e, hu) ->
  deploy E this options h = (Ok (deploy_failure (catch_message e)), hu) /\
  (forall ev, In ev (calls (deploy E this options) h) -> after_upload ev = false) /\
  trade_requests (calls (deploy E this options) h) = [] /\
  broadcasts (calls (deploy E this options) h) = [] /\
  generated (calls (deploy E this options) h) = [] /\
  (forall message, e = Error message ->
     error (deploy_failure (catch_message e)) = Some message).
Proof.
  intros Hup.
  destruct (deploy_upload_throw E this options h hu e Hup) as [Hd Hc].
  split; [exact Hd|]. rewrite Hc. cbn.
  repeat split; auto.
  - intros ev [<- | []]. reflexivity.
  - intros message ->. reflexivity.
Qed.

Lemma upload_failure_stops_deploy_witness :
  let E := Scenario.world (Throw (Error "Network Error")) in
  let this := Scenario.client VNull in
  let options := Scenario.options None None in
  let hu := [EvPostForm (String.append baseUrl "/ipfs")
                        (metadata_form E Scenario.turnip)] in
  deploy E this options [] = (Ok (deploy_failure "Network Error"), hu) /\
  (forall ev, In ev (calls (deploy E this options) []) -> after_upload ev = false) /\
  trade_requests (calls (deploy E this options) []) = [] /\
  broadcasts (calls (deploy E this options) []) = [] /\
  generated (calls (deploy E this options) []) = [] /\
  (forall message, Error "Network Error" = Error message ->
     error (deploy_failure "Network Error") = Some message).
Proof.
  cbv zeta.
  apply (upload_failure_stops_deploy
           (Scenario.world (Throw (Error "Network Error")))
           (Scenario.client VNull) (Scenario.options None None) []
           [EvPostForm (String.append baseUrl "/ipfs")
                       (metadata_form (Scenario.world (Throw (Error "Network Error")))
                                      Scenario.turnip)]
           (Error "Network Error")).
  reflexivity.
Defined.

(** C5: every record returned by [deploy], [buy] or [sell] is closed:
    with [success = true] there is no [error]; with [success = false]
    there is an [error] and none of [mint], [signature], [metadataUri],
    [pumpUrl]. *)
Theorem results_are_closed (E : Env) (this : Client) :
  (forall options h,
     exists res h', deploy E this options h = (Ok res, h') /\ closed_deploy_result res) /\
  (forall mint amount slippage h,
     exists res h', buy E this mint amount slippage h = (Ok res, h') /\
                    closed_trade_result res) /\
  (forall mint amount slippage h,
     exists res h', sell E this mint amount slippage h = (Ok res, h') /\
                    closed_trade_result res).
Proof.
  split; [|split].
  - intros options h.
    destruct (deploy_outcome E this options h)
      as (res & h' & Hd & [(r & _ & _ & ->) | (e & hb & _ & ->)]);
      eexists; exists h'; (split; [exact Hd|]).
    + apply deploy_success_closed.
    + apply deploy_failure_closed.
  - intros mint amount slippage h.
    destruct (buy_outcome E this mint amount slippage h)
      as (res & h' & Hd & [(sig & ->) | (e & hb & _ & ->)]);
      eexists; exists h'; (split; [exact Hd|]).
    + split; cbn; [reflexivity | discriminate].
    + apply trade_failure_closed.
  - intros mint amount slippage h.
    destruct (sell_outcome E this mint amount slippage h)
      as (res & h' & Hd & [(sig & ->) | (e & hb & _ & ->)]);
      eexists; exists h'; (split; [exact Hd|]).
    + split; cbn; [reflexivity | discriminate].
    + apply trade_failure_closed.
Qed.

(** C6: [deploy], [buy] and [sell] never throw.  Whatever exception the
    stages inside the [try] block raise, the method returns a record:
    the failure record whose [error] is the exception's message, or
    "Unknown error" when the thrown value is not an [Error]. *)
Theorem pipeline_never_throws (E : Env) (this : Client) :
  (forall options h,
     exists res h',
       deploy E this options h = (Ok res, h') /\
       forall e hb, deploy_body E this options h = (Throw e, hb) ->
                    res = deploy_failure (catch_message e) /\ h' = hb) /\
  (forall mint amount slippage h,
     exists res h',
       buy E this mint amount slippage h = (Ok res, h') /\
       forall e hb,
         buy_body E this mint amount (default_param slippage num_10) h = (Throw e, hb) ->
         res = trade_failure (catch_message e) /\ h' = hb) /\
  (forall mint amount slippage h,
     exists res h',
       sell E this mint amount slippage h = (Ok res, h') /\
       forall e hb,
         sell_body E this mint amount (default_param slippage num_10) h = (Throw e, hb) ->
         res = trade_failure (catch_message e) /\ h' = hb) /\
  (forall message, catch_message (Error message) = message) /\
  (forall v, catch_message (NonError v) = "Unknown error").
Proof.
  repeat split.
  - intros options h. rewrite deploy_unfold.
    destruct (deploy_body E this options h) as [[res | e] h'];
      eexists; eexists; (split; [reflexivity|]); intros e' hb Heq.
    + discriminate.
    + injection Heq as <- <-. auto.
  - intros mint amount slippage h. rewrite buy_unfold.
    destruct (buy_body E this mint amount (default_param slippage num_10) h)
      as [[res | e] h'];
      eexists; eexists; (split; [reflexivity|]); intros e' hb Heq.
    + discriminate.
    + injection Heq as <- <-. auto.
  - intros mint amount slippage h. rewrite sell_unfold.
    destruct (sell_body E this mint amount (default_param slippage num_10) h)
      as [[res | e] h'];
      eexists; eexists; (split; [reflexivity|]); intros e' hb Heq.
    + discriminate.
    + injection Heq as <- <-. auto.
Qed.

(** A successful [deploy] went through every stage. *)
Lemma deploy_success_inv (E : Env) (this : Client) (options : DeployOptions)
  (h h' : History) (res : DeployResult) :
  deploy E this options h = (Ok res, h') ->
  success res = true ->
  exists r,
    stages_succeed E this options h r /\
    res = deploy_success r /\
    h' = h ++ deploy_run_calls E this options r.
Proof.
  rewrite deploy_unfold. intros Hd Hs.
  destruct (deploy_body E this options h) as [[res0 | e] hb] eqn:Hb.
  - injection Hd as <- <-.
    destruct (deploy_body_ok_inv _ _ _ _ _ _ Hb) as (r & Hst & _ & Hres & Hh).
    exists r. auto.
  - injection Hd as <- <-. discriminate.
Qed.

Lemma address_differs (k1 k2 : Keypair) :
  publicKey k1 <> publicKey k2 ->
  toBase58 (publicKey k1) <> toBase58 (publicKey k2).
Proof.
  destruct k1 as [[a1] s1], k2 as [[a2] s2]; cbn. congruence.
Qed.

(** C9: a [deploy] draws its mint keypair from the key generator inside
    the call, once, right after the upload (an attempt whose upload
    throws generates none), and the client, which has the fields
    [connection] and [wallet] only, keeps no place for it.  So for two
    invocations that both succeed and whose generated keypairs [k1] and
    [k2] differ, each call generated exactly that one keypair, each
    record carries its own keypair's address, and the two [mint]
    addresses are distinct. *)
Theorem deploy_mints_are_fresh
  (E : Env) (this1 this2 : Client) (o1 o2 : DeployOptions)
  (h1 h2 h1' h2' : History) (r1 r2 : DeployResult) (k1 k2 : Keypair) :
  deploy E this1 o1 h1 = (Ok r1, h1') ->
  deploy E this2 o2 h2 = (Ok r2, h2') ->
  success r1 = true ->
  success r2 = true ->
  In k1 (generated (calls (deploy E this1 o1) h1)) ->
  In k2 (generated (calls (deploy E this2 o2) h2)) ->
  publicKey k1 <> publicKey k2 ->
  generated (calls (deploy E this1 o1) h1) = [k1] /\
  generated (calls (deploy E this2 o2) h2) = [k2] /\
  k1 = Keypair_generate E (h1 ++ firstn 1 (calls (deploy E this1 o1) h1)) /\
  k2 = Keypair_generate E (h2 ++ firstn 1 (calls (deploy E this2 o2) h2)) /\
  mint r1 = Some (toBase58 (publicKey k1)) /\
  mint r2 = Some (toBase58 (publicKey k2)) /\
  mint r1 <> mint r2 /\
  (forall this options h,
     generated (calls (deploy E this options) h) =
     match uploadMetadata E (metadata options) h with
     | (Ok _, h') => [Keypair_generate E h']
     | (Throw _, _) => []
     end).
Proof.
  intros Hd1 Hd2 Hs1 Hs2 Hk1 Hk2 Hne.
  assert (Hgen : forall this options h,
             generated (calls (deploy E this options) h) =
             match uploadMetadata E (metadata options) h with
             | (Ok _, h') => [Keypair_generate E h']
             | (Throw _, _) => []
             end) by (intros; apply deploy_generated).
  destruct (deploy_success_inv _ _ _ _ _ _ Hd1 Hs1) as (x1 & Hst1 & -> & ->).
  destruct (deploy_success_inv _ _ _ _ _ _ Hd2 Hs2) as (x2 & Hst2 & -> & ->).
  rewrite (calls_app _ _ _ (f_equal snd Hd1)) in *.
  rewrite (calls_app _ _ _ (f_equal snd Hd2)) in *.
  cbn [deploy_run_calls generated firstn In] in *.
  destruct Hk1 as [Hk1 | []]. destruct Hk2 as [Hk2 | []]. subst k1 k2.
  destruct Hst1 as (_ & _ & Hg1 & _). destruct Hst2 as (_ & _ & Hg2 & _).
  cbn [deploy_run_calls firstn] in Hg1, Hg2.
  cbn [deploy_success mint].
  repeat match goal with |- _ /\ _ => split end; auto.
  intros Heq. injection Heq as Heq. revert Heq. apply address_differs. exact Hne.
Qed.

Lemma deploy_mints_are_fresh_witness :
  let E := Scenario.good_world in
  let this := Scenario.client VNull in
  let o := Scenario.options None None in
  let h := Scenario.after_first in
  let k1 := run_mint Scenario.good_run in
  let k2 := run_mint (Scenario.run_at h) in
  let r1 := deploy_success Scenario.good_run in
  let r2 := deploy_success (Scenario.run_at h) in
  generated (calls (deploy E this o) []) = [k1] /\
  generated (calls (deploy E this o) h) = [k2] /\
  k1 = Keypair_generate E ([] ++ firstn 1 (calls (deploy E this o) [])) /\
  k2 = Keypair_generate E (h ++ firstn 1 (calls (deploy E this o) h)) /\
  mint r1 = Some (toBase58 (publicKey k1)) /\
  mint r2 = Some (toBase58 (publicKey k2)) /\
  mint r1 <> mint r2 /\
  (forall this options h,
     generated (calls (deploy E this options) h) =
     match uploadMetadata E (metadata options) h with
     | (Ok _, h') => [Keypair_generate E h']
     | (Throw _, _) => []
     end).
Proof.
  cbv zeta.
  apply (deploy_mints_are_fresh Scenario.good_world
           (Scenario.client VNull) (Scenario.client VNull)
           (Scenario.options None None) (Scenario.options None None)
           [] Scenario.after_first
           Scenario.after_first
           (Scenario.after_first ++
            deploy_run_calls Scenario.good_world (Scenario.client VNull)
              (Scenario.options None None) (Scenario.run_at Scenario.after_first))).
  - reflexivity.
  - reflexivity.
  - reflexivity.
  - reflexivity.
  - left; reflexivity.
  - left; reflexivity.
  - discriminate.
Defined.

(** C10: [TurnipAgent.deploy] uploads the description
    "<name> - AI-generated art token" when the caller gives none or the
    empty string, and the caller's own description when it is not
    empty. *)
Theorem agent_default_description
  (E : Env) (this : Agent.TurnipAgent) (image : Agent.GeneratedImage)
  (name ticker : string) (twitter telegram website : option string)
  (devBuyAmount slippage : option number) (h : History) :
  let uploaded_description (description : option string) :=
    map (fun form => form_field form "description")
        (uploads (calls (Agent.deploy E this
                           (Agent.mkOptions image name ticker description
                              twitter telegram website devBuyAmount slippage)) h)) in
  uploaded_description None
    = [Some (FText (String.append name " - AI-generated art token"))] /\
  uploaded_description (Some EmptyString)
    = [Some (FText (String.append name " - AI-generated art token"))] /\
  (forall c s, uploaded_description (Some (String c s)) = [Some (FText (String c s))]).
Proof.
  cbv zeta. unfold Agent.deploy.
  repeat split; intros; rewrite deploy_uploads;
    destruct twitter as [[|? ?]|], telegram as [[|? ?]|], website as [[|? ?]|];
    reflexivity.
Qed.

(** ** The on-chain error of the confirmation *)

(** [deploy] reads [confirmation.value.err]: a truthy error, and every
    error object is truthy, gives the failure record whose message is
    built from it. *)
Lemma deploy_on_chain_error
  (E : Env) (this : Client) (options : DeployOptions) (h : History) (r : DeployRun) :
  stages_succeed E this options h r ->
  is_object (err (run_confirmation r)) = true ->
  deploy E this options h =
  (Ok (deploy_failure (String.append "Transaction failed: "
                         (JSON_stringify E (err (run_confirmation r))))),
   h ++ deploy_run_calls E this options r).
Proof.
  intros Hs Hobj.
  pose proof (deploy_body_stages E this options h r Hs) as Hb.
  assert (Ht : truthy (err (run_confirmation r)) = true)
    by (destruct (err (run_confirmation r)); cbn in *; congruence).
  rewrite Ht in Hb.
  unfold deploy. erewrite try_catch_throw by exact Hb. reflexivity.
Qed.

(** C1 (the code departs from it in [buy] and [sell]): the broadcast
    returns a signature and the confirmation carries the error object
    of a failed instruction.  [deploy] returns the failure record built
    from that error, but [buy] and [sell], which call the confirmation
    and do not read its [err], return [success = true] with the
    signature. *)
Theorem trades_succeed_despite_chain_error :
  let E := Scenario.good_world in
  let this := Scenario.client Scenario.instruction_error in
  let traded := {| trade_success := true;
                   trade_signature := Some "5igNature";
                   trade_error := None |} in
  is_object Scenario.instruction_error = true /\
  returned (deploy E this (Scenario.options None None) [])
    = Some (deploy_failure "Transaction failed: {...}") /\
  returned (buy E this "M1nt" (of_Z 1) None []) = Some traded /\
  confirmations (calls (buy E this "M1nt" (of_Z 1) None) []) = ["confirmed"] /\
  returned (sell E this "M1nt" (of_Z 1) None []) = Some traded /\
  confirmations (calls (sell E this "M1nt" (of_Z 1) None) []) = ["confirmed"].
Proof.
  cbv zeta. repeat split; reflexivity.
Qed.

(** ** Defaults of the trade-construction request *)

(** The slippage of the create request: [options.slippage || 10]. *)
Lemma deploy_request_slippage
  (E : Env) (this : Client) (options : DeployOptions) (h : History) :
  Forall (fun request => req_slippage request = or_number (slippage options) num_10)
         (trade_requests (calls (deploy E this options) h)).
Proof.
  rewrite deploy_requests.
  destruct (uploadMetadata E (metadata options) h) as [[uri | e] h1];
    repeat constructor.
Qed.

(** The amount of the create request: [options.devBuyAmount || 0]. *)
Lemma deploy_request_amount
  (E : Env) (this : Client) (options : DeployOptions) (h : History) :
  Forall (fun request => req_amount request = or_number (devBuyAmount options) num_0)
         (trade_requests (calls (deploy E this options) h)).
Proof.
  rewrite deploy_requests.
  destruct (uploadMetadata E (metadata options) h) as [[uri | e] h1];
    repeat constructor.
Qed.

(** Omitting [slippage] gives 10 in all three requests, and [buy] and
    [sell] keep an explicit 0. *)
Lemma slippage_defaults
  (E : Env) (this : Client) (metadata : TokenMetadata) (devBuyAmount : option number)
  (mint : string) (amount : number) (h : History) :
  Forall (fun request => req_slippage request = num_10)
         (trade_requests (calls (deploy E this (mkDeployOptions metadata devBuyAmount None)) h)) /\
  map req_slippage (trade_requests (calls (buy E this mint amount None) h)) = [num_10] /\
  map req_slippage (trade_requests (calls (sell E this mint amount None) h)) = [num_10] /\
  map req_slippage (trade_requests (calls (buy E this mint amount (Some num_0)) h)) = [num_0] /\
  map req_slippage (trade_requests (calls (sell E this mint amount (Some num_0)) h)) = [num_0].
Proof.
  split; [apply (deploy_request_slippage E this (mkDeployOptions metadata devBuyAmount None))|].
  rewrite !buy_requests, !sell_requests. repeat split; reflexivity.
Qed.

(** C2 (the code departs from it in [deploy]): an explicit slippage of
    0 reaches the create request as 10, directly and through the
    agent, because [options.slippage || 10] takes 0 for unset; [buy]
    and [sell], with a default parameter, keep the 0. *)
Theorem deploy_replaces_zero_slippage :
  let E := Scenario.good_world in
  let this := Scenario.client VNull in
  map req_slippage
      (trade_requests (calls (deploy E this (Scenario.options None (Some num_0))) []))
    = [num_10] /\
  map req_slippage
      (trade_requests
         (calls (Agent.deploy E Scenario.agent
                   (Scenario.agent_options None None (Some num_0))) []))
    = [num_10] /\
  map req_slippage (trade_requests (calls (buy E this "M1nt" (of_Z 1) (Some num_0)) []))
    = [num_0] /\
  map req_slippage (trade_requests (calls (sell E this "M1nt" (of_Z 1) (Some num_0)) []))
    = [num_0] /\
  num_10 <> num_0.
Proof.
  cbv zeta. repeat split; try reflexivity. discriminate.
Qed.

(** C8, as the code has it: the create request's amount is 0 when
    [PumpPortalClient.deploy] gets no [devBuyAmount] and when it gets
    0; through [TurnipAgent.deploy] an explicit 0 stays 0 whatever the
    configuration, and an omitted [devBuyAmount] takes the
    configuration's [devBuyAmount] (0 when that is unset or 0). *)
Theorem create_amount_defaults
  (E : Env) (this : Client) (agent : Agent.TurnipAgent)
  (metadata : TokenMetadata) (slippage : option number)
  (image : Agent.GeneratedImage) (name ticker : string)
  (description twitter telegram website : option string) (h : History) :
  let amounts_are (amount : number) (c : M DeployResult) :=
    Forall (fun request => req_amount request = amount) (trade_requests (calls c h)) in
  let through_agent (devBuyAmount : option number) :=
    Agent.deploy E agent
      (Agent.mkOptions image name ticker description twitter telegram website
                       devBuyAmount slippage) in
  amounts_are num_0 (deploy E this (mkDeployOptions metadata None slippage)) /\
  amounts_are num_0 (deploy E this (mkDeployOptions metadata (Some num_0) slippage)) /\
  amounts_are num_0 (through_agent (Some num_0)) /\
  amounts_are (or_number (Agent.devBuyAmount (Agent.config agent)) num_0)
              (through_agent None) /\
  or_number None num_0 = num_0 /\
  or_number (Some num_0) num_0 = num_0.
Proof.
  cbv zeta. unfold Agent.deploy.
  repeat match goal with |- _ /\ _ => split end; try reflexivity.
  - apply (deploy_request_amount E this (mkDeployOptions metadata None slippage)).
  - apply (deploy_request_amount E this (mkDeployOptions metadata (Some num_0) slippage)).
  - match goal with |- context [deploy E ?c ?o] => apply (deploy_request_amount E c o) end.
  - match goal with |- context [deploy E ?c ?o] => apply (deploy_request_amount E c o) end.
Qed.

(** C8, as stated, fails through the agent: with a configured
    [devBuyAmount] of 1 and no [devBuyAmount] in the call, the create
    request asks for 1, not 0. *)
Lemma agent_omitted_amount_is_configured :
  exists request,
    In request
       (trade_requests
          (calls (Agent.deploy Scenario.good_world Scenario.agent
                    (Scenario.agent_options None None None)) [])) /\
    req_amount request = of_Z 1 /\
    req_amount request <> num_0.
Proof.
  eexists. split; [left; reflexivity|]. split; [reflexivity | discriminate].
Qed.

(** ** Broadcast and confirmation options *)

(** What the three methods hand to the node, on every path: [deploy]
    broadcasts with [skipPreflight = false],
    [preflightCommitment = "confirmed"] and [maxRetries = 3]; [buy] and
    [sell] broadcast with the first two and leave [maxRetries] out;
    every confirmation asks for commitment ["confirmed"]. *)
Theorem broadcast_and_confirm_options
  (E : Env) (this : Client) (options : DeployOptions)
  (mint : string) (amount : number) (slippage : option number) (h : History) :
  Forall (fun opts => skipPreflight opts = false /\
                      preflightCommitment opts = "confirmed" /\
                      maxRetries opts = Some num_3)
         (broadcasts (calls (deploy E this options) h)) /\
  Forall (fun opts => skipPreflight opts = false /\
                      preflightCommitment opts = "confirmed" /\
                      maxRetries opts = None)
         (broadcasts (calls (buy E this mint amount slippage) h)) /\
  Forall (fun opts => skipPreflight opts = false /\
                      preflightCommitment opts = "confirmed" /\
                      maxRetries opts = None)
         (broadcasts (calls (sell E this mint amount slippage) h)) /\
  Forall (eq "confirmed") (confirmations (calls (deploy E this options) h)) /\
  Forall (eq "confirmed") (confirmations (calls (buy E this mint amount slippage) h)) /\
  Forall (eq "confirmed") (confirmations (calls (sell E this mint amount slippage) h)).
Proof.
  repeat match goal with |- _ /\ _ => split end.
  - eapply Forall_impl; [|apply deploy_broadcasts]. intros opts <-. auto.
  - eapply Forall_impl; [|apply buy_broadcasts]. intros opts <-. auto.
  - eapply Forall_impl; [|apply sell_broadcasts]. intros opts <-. auto.
  - apply deploy_confirmations.
  - apply buy_confirmations.
  - apply sell_confirmations.
Qed.

(** C7 (the code departs from it in [buy] and [sell]): on a world where
    every stage succeeds, the one broadcast of [deploy] passes
    [skipPreflight = false], [preflightCommitment = "confirmed"] and
    [maxRetries = 3], and every confirmation asks for ["confirmed"];
    but the one broadcast of [buy] and of [sell] carries no
    [maxRetries]: the retry budget of 3 that the sibling [deploy]
    passes is missing from both. *)
Theorem trades_broadcast_without_retry_budget :
  let E := Scenario.good_world in
  let this := Scenario.client VNull in
  let bought := calls (buy E this "M1nt" (of_Z 1) None) [] in
  let sold := calls (sell E this "M1nt" (of_Z 1) None) [] in
  let deployed := calls (deploy E this (Scenario.options None None)) [] in
  broadcasts deployed
    = [{| skipPreflight := false;
          preflightCommitment := "confirmed";
          maxRetries := Some num_3 |}] /\
  broadcasts bought
    = [{| skipPreflight := false;
          preflightCommitment := "confirmed";
          maxRetries := None |}] /\
  broadcasts sold
    = [{| skipPreflight := false;
          preflightCommitment := "confirmed";
          maxRetries := None |}] /\
  ~ Forall (fun opts => maxRetries opts = Some num_3) (broadcasts bought) /\
  ~ Forall (fun opts => maxRetries opts = Some num_3) (broadcasts sold) /\
  confirmations deployed = ["confirmed"] /\
  confirmations bought = ["confirmed"] /\
  confirmations sold = ["confirmed"].
Proof.
  cbv zeta. repeat match goal with |- _ /\ _ => split end; try reflexivity.
  - intros HF. inversion HF as [|opts rest Hm _ Heq]. discriminate Hm.
  - intros HF. inversion HF as [|opts rest Hm _ Heq]. discriminate Hm.
Qed.

(** ** The pipeline on concrete worlds *)

Example deploy_succeeds :
  deploy Scenario.good_world (Scenario.client VNull)
         (Scenario.options (Some (of_Z 1)) (Some num_10)) []
  = (Ok (deploy_success Scenario.good_run),
     deploy_run_calls Scenario.good_world (Scenario.client VNull)
       (Scenario.options (Some (of_Z 1)) (Some num_10)) Scenario.good_run).
Proof. reflexivity. Qed.

Example deploy_pump_url :
  pumpUrl (deploy_success Scenario.good_run) = Some "https://pump.fun/Mx".
Proof. reflexivity. Qed.

Example deploy_empty_build_answer :
  let E := {| JSON_stringify := Scenario.print;
              Buffer_from_base64 := Buffer_from_base64 Scenario.good_world;
              axios_post_form := axios_post_form Scenario.good_world;
              axios_post_json := fun _ _ _ => Ok None;
              Keypair_generate := Scenario.fresh_key;
              VersionedTransaction_deserialize :=
                VersionedTransaction_deserialize Scenario.good_world;
              VersionedTransaction_sign :=
                VersionedTransaction_sign Scenario.good_world |} in
  returned (deploy E (Scenario.client VNull) (Scenario.options None None) [])
  = Some (deploy_failure "No response from PumpPortal API").
Proof. reflexivity. Qed.

Example deploy_upload_without_uri :
  returned (deploy (Scenario.world (Ok {| resp_metadataUri := None |}))
                   (Scenario.client VNull) (Scenario.options None None) [])
  = Some (deploy_failure "Failed to upload metadata to IPFS").
Proof. reflexivity. Qed.

Example deploy_upload_throws_a_string :
  returned (deploy (Scenario.world (Throw (NonError (VStr "boom"))))
                   (Scenario.client VNull) (Scenario.options None None) [])
  = Some (deploy_failure "Unknown error").
Proof. reflexivity. Qed.

Example buy_broadcast_rejected :
  let this := {| connection :=
                   {| sendTransaction := fun _ _ _ => Throw (Error "blockhash not found");
                      confirmTransaction := fun _ _ _ => Ok {| err := VNull |} |};
                 wallet := Scenario.wallet_key |} in
  returned (buy Scenario.good_world this "M1nt" (of_Z 1) None [])
  = Some (trade_failure "blockhash not found").
Proof. reflexivity. Qed.

(** * Further properties of the pipeline *)

(** ** Order of the stages *)

(** X1: a [deploy] never repeats or reorders a stage.  Its external
    calls are the first [n] of upload, key generation, build,
    deserialization, signing, broadcast, confirmation, for some [n]
    between 1 and 7: the upload is always attempted and nothing is
    retried. *)
Theorem deploy_calls_follow_the_stages
  (E : Env) (this : Client) (options : DeployOptions) (h : History) :
  exists n, 1 <= n <= 7 /\ map stage (calls (deploy E this options) h) = seq 0 n.
Proof.
  all_paths; read_calls;
    first [ exists 1; split; [lia | reflexivity]
          | exists 2; split; [lia | reflexivity]
          | exists 3; split; [lia | reflexivity]
          | exists 4; split; [lia | reflexivity]
          | exists 5; split; [lia | reflexivity]
          | exists 6; split; [lia | reflexivity]
          | exists 7; split; [lia | reflexivity] ].
Qed.

(** X2: [buy] and [sell] make the last five stages in order, each at
    most once, starting with the build request, which is always
    posted; neither uploads anything nor generates a keypair. *)
Theorem trade_calls_follow_the_stages
  (E : Env) (this : Client) (mint : string) (amount : number)
  (slippage : option number) (h : History) :
  (exists n, 1 <= n <= 5 /\
             map stage (calls (buy E this mint amount slippage) h) = seq 2 n) /\
  (exists n, 1 <= n <= 5 /\
             map stage (calls (sell E this mint amount slippage) h) = seq 2 n) /\
  uploads (calls (buy E this mint amount slippage) h) = [] /\
  uploads (calls (sell E this mint amount slippage) h) = [] /\
  generated (calls (buy E this mint amount slippage) h) = [] /\
  generated (calls (sell E this mint amount slippage) h) = [].
Proof.
  repeat match goal with |- _ /\ _ => split end;
    all_paths; read_calls; try reflexivity;
    first [ exists 1; split; [lia | reflexivity]
          | exists 2; split; [lia | reflexivity]
          | exists 3; split; [lia | reflexivity]
          | exists 4; split; [lia | reflexivity]
          | exists 5; split; [lia | reflexivity] ].
Qed.

(** ** Signer composition *)

(** X3: whenever [deploy] signs, the signer list is the wallet followed
    by the keypair generated in the same call, in this order; [buy] and
    [sell] sign with the wallet alone. *)
Theorem signers_of_the_pipeline
  (E : Env) (this : Client) (options : DeployOptions)
  (mint : string) (amount : number) (slippage : option number) (h : History) :
  Forall (fun signers =>
            signers = wallet this :: generated (calls (deploy E this options) h))
         (signer_sets (calls (deploy E this options) h)) /\
  Forall (eq [wallet this]) (signer_sets (calls (buy E this mint amount slippage) h)) /\
  Forall (eq [wallet this]) (signer_sets (calls (sell E this mint amount slippage) h)).
Proof.
  repeat match goal with |- _ /\ _ => split end;
    all_paths; read_calls; repeat constructor.
Qed.

(** ** What a result tells about the calls made *)

(** X4: [deploy] returns [success = true] only after every stage
    answered and the confirmation's [err] was falsy: the calls of that
    attempt are exactly the seven stage calls, with one broadcast, and
    the record is assembled from their answers. *)
Theorem deploy_success_needs_every_stage
  (E : Env) (this : Client) (options : DeployOptions)
  (h h' : History) (res : DeployResult) :
  deploy E this options h = (Ok res, h') ->
  success res = true ->
  exists r,
    stages_succeed E this options h r /\
    truthy (err (run_confirmation r)) = false /\
    res = deploy_success r /\
    calls (deploy E this options) h = deploy_run_calls E this options r /\
    broadcasts (calls (deploy E this options) h) = [send_options_with_retries].
Proof.
  intros Hd Hs.
  assert (Hd' := Hd). rewrite deploy_unfold in Hd'.
  destruct (deploy_body E this options h) as [[res0 | e] hb] eqn:Hb.
  - injection Hd' as <- <-.
    destruct (deploy_body_ok_inv _ _ _ _ _ _ Hb) as (r & Hst & Herr & Hres & Hh).
    exists r. subst hb.
    rewrite (calls_app _ _ _ (f_equal snd Hd)).
    split; [exact Hst|]. split; [exact Herr|]. split; [exact Hres|].
    split; reflexivity.
  - injection Hd' as <- <-. discriminate.
Qed.

Lemma deploy_success_needs_every_stage_witness :
  exists r,
    stages_succeed Scenario.good_world (Scenario.client VNull)
                   (Scenario.options None None) [] r /\
    truthy (err (run_confirmation r)) = false /\
    deploy_success Scenario.good_run = deploy_success r /\
    calls (deploy Scenario.good_world (Scenario.client VNull)
                  (Scenario.options None None)) []
      = deploy_run_calls Scenario.good_world (Scenario.client VNull)
                         (Scenario.options None None) r /\
    broadcasts (calls (deploy Scenario.good_world (Scenario.client VNull)
                              (Scenario.options None None)) [])
      = [send_options_with_retries].
Proof.
  apply (deploy_success_needs_every_stage Scenario.good_world (Scenario.client VNull)
           (Scenario.options None None) [] Scenario.after_first
           (deploy_success Scenario.good_run)).
  - reflexivity.
  - reflexivity.
Defined.

(** The history after [uploadMetadata]: one more call, the post. *)
Lemma uploadMetadata_history (E : Env) (m : TokenMetadata) (h : History) :
  snd (uploadMetadata E m h) =
  h ++ [EvPostForm (String.append baseUrl "/ipfs") (metadata_form E m)].
Proof.
  run_body. repeat split_match; reflexivity.
Qed.

(** X5: when the upload succeeded and the trade-construction endpoint
    answers with no body (or an empty one), [deploy] returns the
    failure "No response from PumpPortal API" after three calls:
    nothing is deserialized, signed, broadcast or confirmed. *)
Theorem deploy_stops_at_empty_build_answer
  (E : Env) (this : Client) (options : DeployOptions)
  (h h1 : History) (uri : string) (body : option string) :
  uploadMetadata E (metadata options) h = (Ok uri, h1) ->
  axios_post_json E (h1 ++ [EvGenerate (Keypair_generate E h1)])
                  (String.append baseUrl "/trade-local")
                  (create_request this options uri (Keypair_generate E h1))
    = Ok body ->
  body = None \/ body = Some EmptyString ->
  returned (deploy E this options h)
    = Some (deploy_failure "No response from PumpPortal API") /\
  map stage (calls (deploy E this options) h) = [0; 1; 2] /\
  deserialized (calls (deploy E this options) h) = [] /\
  signer_sets (calls (deploy E this options) h) = [] /\
  broadcasts (calls (deploy E this options) h) = [] /\
  confirmations (calls (deploy E this options) h) = [].
Proof.
  intros Hup Hpost Hbody.
  pose proof (uploadMetadata_history E (metadata options) h) as Hh.
  rewrite Hup in Hh. cbn [snd] in Hh. subst h1.
  assert (Hd : deploy E this options h =
               (Ok (deploy_failure "No response from PumpPortal API"),
                h ++ [EvPostForm (String.append baseUrl "/ipfs")
                                 (metadata_form E (metadata options));
                      EvGenerate (Keypair_generate E
                                    (h ++ [EvPostForm (String.append baseUrl "/ipfs")
                                             (metadata_form E (metadata options))]));
                      EvPostJson (String.append baseUrl "/trade-local")
                        (create_request this options uri
                           (Keypair_generate E
                              (h ++ [EvPostForm (String.append baseUrl "/ipfs")
                                       (metadata_form E (metadata options))])))])).
  { unfold deploy, try_catch, deploy_body, bind. rewrite Hup.
    unfold generate, post_json, call. cbn [fst snd].
    rewrite Hpost.
    rewrite <- ?app_assoc; cbn [app].
    destruct Hbody as [-> | ->]; reflexivity. }
  rewrite (calls_app _ _ _ (f_equal snd Hd)).
  unfold returned. rewrite Hd. repeat split.
Qed.

Lemma deploy_stops_at_empty_build_answer_witness :
  let E := Cases.builder None in
  let this := Scenario.client VNull in
  let options := Scenario.options None None in
  returned (deploy E this options [])
    = Some (deploy_failure "No response from PumpPortal API") /\
  map stage (calls (deploy E this options) []) = [0; 1; 2] /\
  deserialized (calls (deploy E this options) []) = [] /\
  signer_sets (calls (deploy E this options) []) = [] /\
  broadcasts (calls (deploy E this options) []) = [] /\
  confirmations (calls (deploy E this options) []) = [].
Proof.
  cbv zeta.
  apply (deploy_stops_at_empty_build_answer (Cases.builder None)
           (Scenario.client VNull) (Scenario.options None None) []
           [EvPostForm (String.append baseUrl "/ipfs")
                       (metadata_form (Cases.builder None) Scenario.turnip)]
           "ipfs://meta" None).
  - reflexivity.
  - reflexivity.
  - left; reflexivity.
Defined.

(** X6: a broadcast cannot be taken back.  When the node accepted the
    broadcast and the confirmation call then throws, [deploy] returns
    a failure record, without the signature, although the attempt did
    broadcast the transaction once. *)
Theorem confirmation_failure_hides_the_broadcast
  (E : Env) (this : Client) (options : DeployOptions) (h : History)
  (r : DeployRun) (e : exn) :
  broadcast_accepted E this options h r ->
  confirmTransaction (connection this)
    (h ++ firstn 6 (deploy_run_calls E this options r))
    (run_signature r) "confirmed" = Throw e ->
  exists res,
    returned (deploy E this options h) = Some res /\
    success res = false /\
    error res = Some (catch_message e) /\
    signature res = None /\
    calls (deploy E this options) h = deploy_run_calls E this options r /\
    broadcasts (calls (deploy E this options) h) = [send_options_with_retries].
Proof.
  unfold broadcast_accepted, deploy_run_calls; cbn [firstn].
  intros (Hup & Huri & Hgen & Hpost & Hdata & Hde & Hsg & Hsend) Hconf.
  assert (Hd : deploy E this options h =
               (Ok (deploy_failure (catch_message e)),
                h ++ deploy_run_calls E this options r)).
  { unfold deploy, try_catch, deploy_catch, deploy_run_calls. run_body.
    rewrite Hup; cbn [resp_metadataUri]. rewrite Huri; cbn [negb].
    rewrite Hgen.
    rewrite <- ?app_assoc; cbn [app].
    rewrite Hpost. rewrite Hdata; cbn [negb].
    rewrite Hde, Hsg.
    rewrite <- ?app_assoc; cbn [app].
    unfold send_options_with_retries in Hsend, Hconf |- *.
    rewrite Hsend.
    rewrite <- ?app_assoc; cbn [app].
    rewrite Hconf.
    rewrite <- ?app_assoc; cbn [app].
    reflexivity. }
  exists (deploy_failure (catch_message e)).
  rewrite (calls_app _ _ _ (f_equal snd Hd)).
  unfold returned. rewrite Hd. repeat split.
Qed.

Lemma confirmation_failure_hides_the_broadcast_witness :
  let E := Scenario.good_world in
  let this := Cases.deaf_client in
  let options := Scenario.options None None in
  exists res,
    returned (deploy E this options []) = Some res /\
    success res = false /\
    error res = Some "block height exceeded" /\
    signature res = None /\
    calls (deploy E this options) []
      = deploy_run_calls E this options Scenario.good_run /\
    broadcasts (calls (deploy E this options) []) = [send_options_with_retries].
Proof.
  cbv zeta.
  apply (confirmation_failure_hides_the_broadcast Scenario.good_world
           Cases.deaf_client (Scenario.options None None) []
           Scenario.good_run (Error "block height exceeded")).
  - repeat split; reflexivity.
  - reflexivity.
Defined.

(** ** [uploadMetadata] *)

(** X7: [uploadMetadata] posts the form once, whatever the answer (no
    retry); an exception raised while the answer is obtained (by the
    post, or by the read of [metadataUri] on a [null] or [undefined]
    body) passes through unchanged; a response whose body is an object
    with [metadataUri] missing or empty gives the error "Failed to
    upload metadata to IPFS"; and a URI that is returned is the
    response's own and is not empty. *)
Theorem uploadMetadata_contract (E : Env) (m : TokenMetadata) (h : History) :
  let url := String.append baseUrl "/ipfs" in
  let form := metadata_form E m in
  calls (uploadMetadata E m) h = [EvPostForm url form] /\
  (forall e, axios_post_form E h url form = Throw e ->
             fst (uploadMetadata E m h) = Throw e) /\
  (forall response,
     axios_post_form E h url form = Ok response ->
     resp_metadataUri response = None \/ resp_metadataUri response = Some EmptyString ->
     fst (uploadMetadata E m h) = Throw (Error "Failed to upload metadata to IPFS")) /\
  (forall uri,
     fst (uploadMetadata E m h) = Ok uri ->
     uri <> EmptyString /\
     axios_post_form E h url form = Ok {| resp_metadataUri := Some uri |}).
Proof.
  cbv zeta. split; [|split; [|split]].
  - apply calls_app, uploadMetadata_history.
  - intros e He. run_body. rewrite He. reflexivity.
  - intros response Hr Huri. run_body. rewrite Hr.
    destruct Huri as [-> | ->]; reflexivity.
  - intros uri. run_body.
    destruct (axios_post_form E h _ _) as [[[[|c s]|]] | e]; cbn;
      intros Heq; try discriminate.
    injection Heq as <-. split; [discriminate | reflexivity].
Qed.

(** X8: the form [uploadMetadata] builds.  Every field name occurs once;
    [name], [symbol], [description] carry the metadata's strings; the
    [file] part is named "image.png" with content type "image/png" and
    holds the image bytes, decoded from base64 when the image is given
    as a string; a link ([twitter], [telegram], [website]) is in the
    form exactly when it is a non-empty string; and the form ends with
    [showName = "true"]. *)
Theorem metadata_form_fields (E : Env) (m : TokenMetadata) :
  let form := metadata_form E m in
  NoDup (map fst form) /\
  form_field form "name" = Some (FText (name m)) /\
  form_field form "symbol" = Some (FText (symbol m)) /\
  form_field form "description" = Some (FText (description m)) /\
  form_field form "file"
    = Some (FFile match image m with
                  | inl bytes => bytes
                  | inr encoded => Buffer_from_base64 E encoded
                  end "image.png" "image/png") /\
  form_field form "twitter" = link_entry (twitter m) /\
  form_field form "telegram" = link_entry (telegram m) /\
  form_field form "website" = link_entry (website m) /\
  last form (EmptyString, FText EmptyString) = ("showName", FText "true").
Proof.
  cbv zeta. unfold metadata_form.
  destruct m as [n sy d im tw tg w]; cbn [name symbol description image twitter telegram website].
  destruct im as [bytes | encoded];
    destruct tw as [[|? ?]|], tg as [[|? ?]|], w as [[|? ?]|];
    cbn; (repeat split; try reflexivity);
    repeat (constructor; [cbn; intuition discriminate|]); constructor.
Qed.

(** ** The trade requests *)

(** X9: [buy] and [sell] post exactly one request on every path, also
    when a later stage fails.  It carries the wallet's address, the
    mint and the amount as given (no validation), the pool "pump", and
    the slippage given or 10; [buy] is denominated in SOL and [sell] in
    tokens. *)
Theorem trade_requests_pass_through
  (E : Env) (this : Client) (mint : string) (amount : number)
  (slippage : option number) (h : History) :
  exists bought sold,
    trade_requests (calls (buy E this mint amount slippage) h) = [bought] /\
    trade_requests (calls (sell E this mint amount slippage) h) = [sold] /\
    req_action bought = buy_action /\ req_denominatedInSol bought = "true" /\
    req_action sold = sell_action /\ req_denominatedInSol sold = "false" /\
    Forall (fun request =>
              req_publicKey request = getPublicKey this /\
              req_mint request = mint /\
              req_amount request = amount /\
              req_slippage request = match slippage with
                                     | Some percent => percent
                                     | None => num_10
                                     end /\
              req_tokenMetadata request = None /\
              req_pool request = "pump")
           [bought; sold].
Proof.
  eexists; eexists.
  split; [apply buy_requests|]. split; [apply sell_requests|].
  destruct slippage; repeat split; repeat constructor.
Qed.

(** X10: the slippage of a trade placed through the agent:
    [buyToken] and [sellToken] send the caller's slippage when one is
    given, else the configured [defaultSlippage] when there is one,
    else 10; a 0 at either level is sent as 0. *)
Theorem agent_trade_slippage
  (E : Env) (this : Agent.TurnipAgent) (mint : string) (amount : number)
  (slippage : option number) (h : History) :
  let sent := match slippage, Agent.defaultSlippage (Agent.config this) with
              | Some percent, _ => percent
              | None, Some configured => configured
              | None, None => num_10
              end in
  map req_slippage (trade_requests (calls (Agent.buyToken E this mint amount slippage) h))
    = [sent] /\
  map req_slippage (trade_requests (calls (Agent.sellToken E this mint amount slippage) h))
    = [sent].
Proof.
  cbv zeta. unfold Agent.buyToken, Agent.sellToken.
  rewrite buy_requests, sell_requests.
  destruct slippage, (Agent.defaultSlippage (Agent.config this)); split; reflexivity.
Qed.

(** X11: the slippage of a create request placed through the agent.
    A caller's slippage other than 0 (or NaN) is sent as it is; a
    caller's 0 is sent as 10, whatever the configuration; with no
    slippage in the call, the configured [defaultSlippage] is sent when
    it is set and not 0, else 10. *)
Theorem agent_deploy_slippage
  (E : Env) (this : Agent.TurnipAgent) (image : Agent.GeneratedImage)
  (name ticker : string) (description twitter telegram website : option string)
  (devBuyAmount : option number) (h : History) :
  let sends (slippage : option number) (percent : number) :=
    Forall (fun request => req_slippage request = percent)
           (trade_requests
              (calls (Agent.deploy E this
                        (Agent.mkOptions image name ticker description twitter
                                         telegram website devBuyAmount slippage)) h)) in
  (forall percent, num_truthy percent = true -> sends (Some percent) percent) /\
  (forall percent, num_truthy percent = false -> sends (Some percent) num_10) /\
  sends None (match Agent.defaultSlippage (Agent.config this) with
              | Some configured => if num_truthy configured then configured else num_10
              | None => num_10
              end).
Proof.
  cbv zeta. unfold Agent.deploy.
  repeat split; intros;
    (eapply Forall_impl; [|apply deploy_request_slippage]);
    cbn; intros request ->.
  - rewrite H. reflexivity.
  - rewrite H. reflexivity.
  - reflexivity.
Qed.

(** X12: [buy] and [sell] return [success = true] only after all five
    calls returned: the build request, the deserialization, the
    signing, one broadcast and one confirmation of the very signature
    the record carries. *)
Theorem trade_success_needs_confirmation
  (E : Env) (this : Client) (mint : string) (amount : number)
  (slippage : option number) (h : History) :
  let confirmed (c : M TradeResult) :=
    forall res, returned (c h) = Some res -> trade_success res = true ->
      exists sig,
        res = {| trade_success := true; trade_signature := Some sig; trade_error := None |} /\
        map stage (calls c h) = seq 2 5 /\
        broadcasts (calls c h) = [send_options_no_retries] /\
        In (EvConfirm sig "confirmed") (calls c h) in
  confirmed (buy E this mint amount slippage) /\
  confirmed (sell E this mint amount slippage).
Proof.
  cbv zeta. split; intros res;
    unfold returned, calls, buy, sell, try_catch, trade_catch; run_body;
    repeat (cbn [fst snd]; split_match); cbn [fst snd];
    intros Hres Hs; injection Hres as <-; try discriminate;
    eexists; (split; [reflexivity|]); read_calls;
    (split; [reflexivity|]); (split; [reflexivity|]);
    cbn; auto 10.
Qed.

(** * The code around the pipeline *)

(** ** Strings *)

Lemma string_length_append (s t : string) :
  String.length (String.append s t) = String.length s + String.length t.
Proof. induction s as [|c s IH]; cbn; [reflexivity | now rewrite IH]. Qed.

Lemma substring_whole (s : string) : substring 0 (String.length s) s = s.
Proof. induction s as [|c s IH]; cbn; [reflexivity | now rewrite IH]. Qed.

Lemma substring_after (s t : string) :
  substring (String.length s) (String.length t) (String.append s t) = t.
Proof. induction s as [|c s IH]; cbn; [apply substring_whole | exact IH]. Qed.

Lemma endsWith_append (s t : string) : Outside.endsWith (String.append s t) t = true.
Proof.
  unfold Outside.endsWith. rewrite string_length_append.
  replace (Nat.leb (String.length t) (String.length s + String.length t)) with true
    by (symmetry; apply Nat.leb_le; lia).
  replace (String.length s + String.length t - String.length t) with (String.length s)
    by lia.
  rewrite substring_after. apply String.eqb_refl.
Qed.

(** ** The log *)

Lemma pipeline_calls_app (log : Outside.Log) (evs : list Event) :
  Outside.pipeline_calls (log ++ map Outside.Pipeline evs)
  = Outside.pipeline_calls log ++ evs.
Proof.
  induction log as [|c log IH]; cbn.
  - induction evs as [|ev evs IH]; cbn; [reflexivity | now rewrite IH].
  - destruct c; cbn; now rewrite IH.
Qed.

Lemma io_calls_app {X : Type} (c : Outside.IO X) (log : Outside.Log)
  (cs : list Outside.Call) :
  snd (c log) = log ++ cs -> Outside.io_calls c log = cs.
Proof.
  intros Hs. unfold Outside.io_calls. rewrite Hs.
  rewrite skipn_app, skipn_all, Nat.sub_diag. reflexivity.
Qed.

Ltac io_run :=
  unfold Launch.launch, Launch.deploy, Launch.healthCheck, Launch.check_helius,
    Launch.check_openai, Launch.getBalance, Launch.enhancePrompt, Launch.generate,
    Helius.healthCheck, Helius.getBalance,
    Generator.generate, Generator.enhancePrompt,
    Outside.pipeline, Outside.io_try, Outside.io_bind, Outside.io_call,
    Outside.io_pure, Outside.io_ret, Outside.io_throw; cbn [fst snd].

Ltac read_log :=
  cbn [fst snd]; rewrite <- ?app_assoc; cbn [app];
  try (rewrite skipn_app, skipn_all, Nat.sub_diag; cbn [skipn app]);
  try (rewrite <- (app_nil_r (A := Outside.Call)) at 1;
       rewrite skipn_app, skipn_all, Nat.sub_diag; cbn [skipn app]).

(** ** [ImageGenerator.generate] *)

Lemma output_file_spec (path : string) (format : Generator.Format) :
  let extension := String.append "." (Generator.format_name format) in
  Outside.endsWith (Generator.output_file path format) extension = true /\
  (Outside.endsWith path extension = true -> Generator.output_file path format = path) /\
  (Outside.endsWith path extension = false ->
   Generator.output_file path format = String.append path extension).
Proof.
  cbv zeta. unfold Generator.output_file.
  destruct (Outside.endsWith path (String.append "." (Generator.format_name format)))
    eqn:Hends.
  - repeat split; auto. discriminate.
  - repeat split; auto; try discriminate. apply endsWith_append.
Qed.

(** X13: the file [generate] saves.  When an output path is given and
    [generate] returns, the image was written once, to the path itself
    if it already ends with "." and the format, else to the path with
    that extension added; either way the file name ends with the
    extension, it is the [filePath] of the result, and the bytes are
    the decoded [base64] of the result. *)
Theorem generate_saves_under_the_format
  (E : Env) (host : Outside.Host) (this : Generator.ImageGenerator)
  (options : Generator.GenerateOptions) (log log' : Outside.Log)
  (img : Agent.GeneratedImage) (path : string) :
  Generator.generate E host this options log = (Ok img, log') ->
  Generator.outputPath options = Some path ->
  path <> EmptyString ->
  let extension :=
    String.append "." (Generator.format_name
                         (default_param (Generator.format options)
                                        (Generator.defaultFormat this))) in
  exists file,
    Agent.filePath img = Some file /\
    Outside.endsWith file extension = true /\
    (Outside.endsWith path extension = true -> file = path) /\
    (Outside.endsWith path extension = false -> file = String.append path extension) /\
    Outside.files_written (Outside.io_calls (Generator.generate E host this options) log)
      = [(file, Buffer_from_base64 E (Agent.base64 img))].
Proof.
  intros Hrun Hpath Hne. cbv zeta.
  unfold Outside.io_calls. revert Hrun. io_run. rewrite Hpath.
  destruct path as [|c path]; [congruence|]. cbn [str_truthy].
  repeat (cbn [fst snd]; split_match); intros Hrun; try discriminate;
    injection Hrun as <- <-; cbn [Agent.filePath Agent.base64];
    eexists; (split; [reflexivity|]); read_log.
  all: match goal with
       | |- context [Generator.output_file ?p ?f] =>
           destruct (output_file_spec p f) as (H1 & H2 & H3)
       end.
  all: repeat split; assumption.
Qed.

Lemma generate_saves_under_the_format_witness :
  exists file,
    Agent.filePath
      {| Agent.url := EmptyString;
         Agent.base64 := "iVBORw0KGgo=";
         Agent.prompt := "a turnip";
         Agent.revisedPrompt := Some "a turnip in space";
         Agent.filePath := Some "./turnip-art.png" |} = Some file /\
    Outside.endsWith file ".png" = true /\
    (Outside.endsWith "./turnip-art" ".png" = true -> file = "./turnip-art") /\
    (Outside.endsWith "./turnip-art" ".png" = false -> file = "./turnip-art.png") /\
    Outside.files_written
      (Outside.io_calls (Generator.generate Scenario.good_world Studio.disk Studio.painter
                           (Studio.to_file "./turnip-art")) [])
      = [(file, Buffer_from_base64 Scenario.good_world "iVBORw0KGgo=")].
Proof.
  apply (generate_saves_under_the_format Scenario.good_world Studio.disk Studio.painter
           (Studio.to_file "./turnip-art") []
           [Outside.ImagesGenerate Studio.cosmic_request;
            Outside.WriteFile "./turnip-art.png"
              (Buffer_from_base64 Scenario.good_world "iVBORw0KGgo=")]
           {| Agent.url := EmptyString;
              Agent.base64 := "iVBORw0KGgo=";
              Agent.prompt := "a turnip";
              Agent.revisedPrompt := Some "a turnip in space";
              Agent.filePath := Some "./turnip-art.png" |}
           "./turnip-art").
  - reflexivity.
  - reflexivity.
  - discriminate.
Defined.

(** X14: what [generate] returns.  It asks OpenAI once, for one image
    in base64; the image it returns is the first of the answer, its
    [base64] is not empty, its [prompt] is the caller's; and without an
    output path (none, or the empty string) no file is written and the
    result has no [filePath]. *)
Theorem generate_returns_the_first_image
  (E : Env) (host : Outside.Host) (this : Generator.ImageGenerator)
  (options : Generator.GenerateOptions) (log log' : Outside.Log)
  (img : Agent.GeneratedImage) :
  Generator.generate E host this options log = (Ok img, log') ->
  exists request first rest,
    Outside.image_requests (Outside.io_calls (Generator.generate E host this options) log)
      = [request] /\
    Outside.img_n request = Generator.num_1 /\
    Outside.img_response_format request = "b64_json" /\
    Outside.img_prompt request = Generator.prompt options /\
    Outside.images_generate (Generator.client this) log request
      = Ok {| Outside.data := Some (first :: rest) |} /\
    Outside.b64_json first = Some (Agent.base64 img) /\
    Agent.base64 img <> EmptyString /\
    Agent.prompt img = Generator.prompt options /\
    Agent.revisedPrompt img = Outside.revised_prompt first /\
    (Generator.outputPath options = None \/
     Generator.outputPath options = Some EmptyString ->
     Agent.filePath img = None /\
     Outside.files_written
       (Outside.io_calls (Generator.generate E host this options) log) = []).
Proof.
  unfold Outside.io_calls. io_run. unfold Generator.first_image, Generator.image_b64.
  repeat (cbn [fst snd]; split_match); intros Hrun; try discriminate;
    injection Hrun as <- <-;
    repeat match goal with
    | r : Outside.ImagesResponse |- _ => destruct r; cbn [Outside.data] in *
    | H : Some _ = Some _ |- _ => injection H as ?
    | H : negb _ = false |- _ => apply negb_false_iff in H
    end; subst;
    eexists; eexists; eexists; read_log;
    (split; [reflexivity|]); cbn;
    repeat match goal with |- _ /\ _ => split end;
    try reflexivity; try eassumption;
    try (intros ->; discriminate);
    try (intros [? | ?]; congruence);
    try (intros _; split; reflexivity);
    try (intros [Hx | Hx]; [discriminate | injection Hx as ->; discriminate]).
Qed.

Lemma generate_returns_the_first_image_witness :
  exists request first rest,
    Outside.image_requests
      (Outside.io_calls (Generator.generate Scenario.good_world Studio.disk Studio.painter
                           (Studio.to_file EmptyString)) [])
      = [request] /\
    Outside.img_n request = Generator.num_1 /\
    Outside.img_response_format request = "b64_json" /\
    Outside.img_prompt request = "a turnip" /\
    Outside.images_generate (Generator.client Studio.painter) [] request
      = Ok {| Outside.data := Some (first :: rest) |} /\
    Outside.b64_json first = Some (Agent.base64 Studio.painted) /\
    Agent.base64 Studio.painted <> EmptyString /\
    Agent.prompt Studio.painted = "a turnip" /\
    Agent.revisedPrompt Studio.painted = Outside.revised_prompt first /\
    (Generator.outputPath (Studio.to_file EmptyString) = None \/
     Generator.outputPath (Studio.to_file EmptyString) = Some EmptyString ->
     Agent.filePath Studio.painted = None /\
     Outside.files_written
       (Outside.io_calls (Generator.generate Scenario.good_world Studio.disk Studio.painter
                            (Studio.to_file EmptyString)) []) = []).
Proof.
  apply (generate_returns_the_first_image Scenario.good_world Studio.disk Studio.painter
           (Studio.to_file EmptyString) []
           [Outside.ImagesGenerate Studio.cosmic_request] Studio.painted).
  reflexivity.
Defined.

(** X15: [generate] without image data.  When OpenAI answers with no
    [data], an empty list, or a first entry whose [b64_json] is missing
    or empty, [generate] throws "No image data returned from OpenAI"
    after its one request, and writes no file even if an output path
    was given. *)
Theorem generate_without_image_data
  (E : Env) (host : Outside.Host) (this : Generator.ImageGenerator)
  (options : Generator.GenerateOptions) (log : Outside.Log)
  (response : Outside.ImagesResponse) :
  let request :=
    {| Outside.img_model := "gpt-image-1";
       Outside.img_prompt := Generator.prompt options;
       Outside.img_n := Generator.num_1;
       Outside.img_size :=
         Generator.size_name (default_param (Generator.size options)
                                            (Generator.defaultSize this));
       Outside.img_quality :=
         Generator.qualityMap (default_param (Generator.quality options)
                                             (Generator.defaultQuality this));
       Outside.img_response_format := "b64_json" |} in
  Outside.images_generate (Generator.client this) log request = Ok response ->
  Generator.image_b64 (Generator.first_image response) = None \/
  Generator.image_b64 (Generator.first_image response) = Some EmptyString ->
  Generator.generate E host this options log
    = (Throw (Error "No image data returned from OpenAI"),
       log ++ [Outside.ImagesGenerate request]) /\
  Outside.files_written (Outside.io_calls (Generator.generate E host this options) log)
    = [].
Proof.
  cbv zeta. intros Hresp Hnone.
  match goal with
  | |- ?run = (?r, ?l) /\ _ => assert (Hrun : run = (r, l))
  end.
  { io_run. rewrite Hresp.
    destruct (Generator.first_image response) as [d|];
      cbn [Generator.image_b64] in *; [|reflexivity].
    destruct Hnone as [Hn | Hn]; rewrite Hn; reflexivity. }
  split; [exact Hrun|].
  rewrite (io_calls_app _ _ _ (f_equal snd Hrun)). reflexivity.
Qed.

Lemma generate_without_image_data_witness :
  Generator.generate Scenario.good_world Studio.disk Studio.blank_painter
                     (Studio.to_file "./turnip-art") []
    = (Throw (Error "No image data returned from OpenAI"),
       [] ++ [Outside.ImagesGenerate Studio.cosmic_request]) /\
  Outside.files_written
    (Outside.io_calls (Generator.generate Scenario.good_world Studio.disk
                         Studio.blank_painter (Studio.to_file "./turnip-art")) [])
    = [].
Proof.
  apply (generate_without_image_data Scenario.good_world Studio.disk Studio.blank_painter
           (Studio.to_file "./turnip-art") [] {| Outside.data := Some [] |}).
  - reflexivity.
  - left; reflexivity.
Defined.

(** ** [ImageGenerator.enhancePrompt] *)

(** X16: [enhancePrompt] asks the chat model once, with the caller's
    prompt as the user message.  What it returns is the content of the
    first choice when that is a non-empty string, and the caller's own
    prompt otherwise: no choice, no message, a null or an empty
    content. *)
Theorem enhancePrompt_falls_back_to_the_prompt
  (this : Generator.ImageGenerator) (prompt : string) (log : Outside.Log) :
  (exists request,
     Outside.chat_requests (Outside.io_calls (Generator.enhancePrompt this prompt) log)
       = [request] /\
     last (Outside.messages request) {| Outside.role := EmptyString;
                                        Outside.content := EmptyString |}
       = {| Outside.role := "user"; Outside.content := prompt |}) /\
  (forall completion,
     Outside.chat_completions_create (Generator.client this) log
       {| Outside.chat_model := "gpt-4o-mini";
          Outside.messages :=
            [ {| Outside.role := "system";
                 Outside.content := Generator.enhance_instructions |};
              {| Outside.role := "user"; Outside.content := prompt |} ];
          Outside.max_tokens := Generator.num_500 |} = Ok completion ->
     (Generator.first_content completion = None \/
      Generator.first_content completion = Some EmptyString ->
      fst (Generator.enhancePrompt this prompt log) = Ok prompt) /\
     (forall c s, Generator.first_content completion = Some (String c s) ->
                  fst (Generator.enhancePrompt this prompt log) = Ok (String c s))).
Proof.
  split.
  - eexists. unfold Outside.io_calls. io_run.
    repeat (cbn [fst snd]; split_match); read_log; split; reflexivity.
  - intros completion Hc. io_run. rewrite Hc. cbn [fst].
    split.
    + intros [-> | ->]; reflexivity.
    + intros c s ->. reflexivity.
Qed.

(** ** [TurnipAgent.launch] *)

Lemma or_string_empty (s : option string) :
  or_string s EmptyString = match s with Some t => t | None => EmptyString end.
Proof. destruct s as [[|c t]|]; reflexivity. Qed.

(** The log of [generate]: its own calls only, and no file without an
    output path. *)
Lemma generate_log (E : Env) (host : Outside.Host) (this : Generator.ImageGenerator)
  (options : Generator.GenerateOptions) (log : Outside.Log) :
  exists cs,
    snd (Generator.generate E host this options log) = log ++ cs /\
    Outside.pipeline_calls cs = [] /\
    List.length (Outside.image_requests cs) = 1 /\
    (Generator.outputPath options = None -> Outside.files_written cs = []).
Proof.
  io_run. repeat (cbn [fst snd]; split_match); cbn [fst snd];
    rewrite <- ?app_assoc; cbn [app]; eexists; (split; [reflexivity|]);
    repeat split; try reflexivity; intros; discriminate.
Qed.

(** [launch], unfolded along the outcome of the image generation and
    of the deploy. *)
Lemma launch_unfold (E : Env) (host : Outside.Host) (this : Launch.TurnipAgent)
  (options : Launch.LaunchOptions) (log : Outside.Log) :
  let drawn :=
    Generator.generate E host (Launch.imageGenerator this)
      {| Generator.prompt := Launch.prompt options;
         Generator.quality := None;
         Generator.size := None;
         Generator.format := None;
         Generator.outputPath := None |} log in
  match fst drawn with
  | Throw e =>
      Launch.launch E host this options log
      = (Ok (launch_failure (Some (catch_message e))), snd drawn)
  | Ok image =>
      let attempt :=
        Agent.deploy E (Launch.core this) (Launch.launch_deploy_options image options) in
      exists deployed,
        fst (attempt (Outside.pipeline_calls (snd drawn))) = Ok deployed /\
        Launch.launch E host this options log
        = (Ok (if success deployed then launch_success options image deployed
               else launch_failure (error deployed)),
           snd drawn ++ map Outside.Pipeline
                            (calls attempt (Outside.pipeline_calls (snd drawn))))
  end.
Proof.
  cbv zeta. unfold Launch.launch, Outside.io_try, Outside.io_bind.
  destruct (Generator.generate E host (Launch.imageGenerator this) _ log)
    as [[image | e] lg]; cbn [fst snd]; [|reflexivity].
  unfold Launch.deploy, Outside.pipeline, Agent.deploy.
  destruct (deploy_outcome E (Agent.pumpPortal (Launch.core this))
              (Agent.deploy_options (Launch.core this)
                 (Launch.launch_deploy_options image options))
              (Outside.pipeline_calls lg)) as (d & h' & Hd & _).
  exists d. rewrite Hd. cbn [fst snd]. split; [reflexivity|].
  unfold launch_success, launch_failure, Outside.io_ret.
  destruct (success d); cbn [negb]; rewrite ?or_string_empty; reflexivity.
Qed.

(** X17: [launch] never throws, and its record is closed.  With
    [success = true] it has no [error], an [image] and a [token] whose
    [mint], [signature] and [pumpUrl] are all present (so the non-null
    assertions on the deploy record never see a missing field), the
    [pumpUrl] being "https://pump.fun/" followed by the mint; with
    [success = false] it has an [error] and neither [image] nor
    [token]. *)
Theorem launch_returns_closed_records
  (E : Env) (host : Outside.Host) (this : Launch.TurnipAgent)
  (options : Launch.LaunchOptions) (log : Outside.Log) :
  exists res log',
    Launch.launch E host this options log = (Ok res, log') /\
    (Launch.launched res = true ->
     Launch.launch_error res = None /\
     exists picture token address sig,
       Launch.launch_image res = Some picture /\
       Launch.launch_token res = Some token /\
       Launch.token_mint token = Some address /\
       Launch.token_signature token = Some sig /\
       Launch.token_pumpUrl token = Some (String.append "https://pump.fun/" address) /\
       Launch.token_name token = Launch.name options /\
       Launch.token_ticker token = Launch.ticker options) /\
    (Launch.launched res = false ->
     Launch.launch_image res = None /\
     Launch.launch_token res = None /\
     exists message, Launch.launch_error res = Some message).
Proof.
  pose proof (launch_unfold E host this options log) as Hl. cbv zeta in Hl.
  destruct (Generator.generate E host (Launch.imageGenerator this) _ log)
    as [[image | e] lg]; cbn [fst snd] in Hl.
  - destruct Hl as (d & Hd & Hl). rewrite Hl. eexists; eexists.
    split; [reflexivity|].
    unfold Agent.deploy in Hd.
    destruct (deploy_outcome E (Agent.pumpPortal (Launch.core this))
                (Agent.deploy_options (Launch.core this)
                   (Launch.launch_deploy_options image options))
                (Outside.pipeline_calls lg))
      as (d' & h' & Hd' & [(r & _ & _ & Hres) | (e & hb & _ & Hres)]);
      rewrite Hd' in Hd; cbn [fst] in Hd; injection Hd as <-; subst d'; cbn.
    + split; [|discriminate]. intros _. split; [reflexivity|].
      do 4 eexists. repeat split.
    + split; [discriminate|]. intros _. repeat split. eauto.
  - rewrite Hl. eexists; eexists. split; [reflexivity|]. cbn.
    split; [discriminate|]. intros _. repeat split. eauto.
Qed.

(** X18: when the image generation throws, [launch] returns the failure
    record with the exception's message and starts no deploy: not one
    call of the pipeline (no upload, no key, no request, no broadcast)
    is made. *)
Theorem launch_without_an_image_deploys_nothing
  (E : Env) (host : Outside.Host) (this : Launch.TurnipAgent)
  (options : Launch.LaunchOptions) (log log' : Outside.Log) (e : exn) :
  Generator.generate E host (Launch.imageGenerator this)
    {| Generator.prompt := Launch.prompt options;
       Generator.quality := None;
       Generator.size := None;
       Generator.format := None;
       Generator.outputPath := None |} log = (Throw e, log') ->
  Launch.launch E host this options log
    = (Ok (launch_failure (Some (catch_message e))), log') /\
  Outside.pipeline_calls (Outside.io_calls (Launch.launch E host this options) log) = [] /\
  Outside.files_written (Outside.io_calls (Launch.launch E host this options) log) = [].
Proof.
  intros Hg.
  pose proof (launch_unfold E host this options log) as Hl. cbv zeta in Hl.
  destruct (generate_log E host (Launch.imageGenerator this)
              {| Generator.prompt := Launch.prompt options;
                 Generator.quality := None;
                 Generator.size := None;
                 Generator.format := None;
                 Generator.outputPath := None |} log) as (cs & Hcs & Hp & _ & Hw).
  rewrite Hg in Hl, Hcs. cbn [fst snd] in Hl, Hcs.
  split; [exact Hl|].
  rewrite (io_calls_app _ _ cs) by (rewrite Hl; exact Hcs).
  split; [exact Hp | apply Hw; reflexivity].
Qed.

Lemma launch_without_an_image_deploys_nothing_witness :
  let this := Studio.agent Studio.idle_painter in
  Launch.launch Scenario.good_world Studio.disk this Studio.cosmic []
    = (Ok (launch_failure (Some "Billing hard limit has been reached")),
       [Outside.ImagesGenerate Studio.cosmic_request]) /\
  Outside.pipeline_calls
    (Outside.io_calls (Launch.launch Scenario.good_world Studio.disk this Studio.cosmic) [])
    = [] /\
  Outside.files_written
    (Outside.io_calls (Launch.launch Scenario.good_world Studio.disk this Studio.cosmic) [])
    = [].
Proof.
  cbv zeta.
  apply (launch_without_an_image_deploys_nothing Scenario.good_world Studio.disk
           (Studio.agent Studio.idle_painter) Studio.cosmic []
           [Outside.ImagesGenerate Studio.cosmic_request]
           (Error "Billing hard limit has been reached")).
  reflexivity.
Defined.

(** X19: once the image is generated, [launch] is one [deploy] of it.
    The pipeline calls of the launch are the calls of that deploy; the
    launch succeeds exactly when the deploy does; on success the token
    carries the deploy record's [mint], [signature] and [pumpUrl] and
    the image its [metadataUri]; on failure the deploy's [error] is
    passed on and the generated image is not returned.  No file is
    written either way. *)
Theorem launch_is_one_deploy
  (E : Env) (host : Outside.Host) (this : Launch.TurnipAgent)
  (options : Launch.LaunchOptions) (log log' : Outside.Log)
  (image : Agent.GeneratedImage) :
  Generator.generate E host (Launch.imageGenerator this)
    {| Generator.prompt := Launch.prompt options;
       Generator.quality := None;
       Generator.size := None;
       Generator.format := None;
       Generator.outputPath := None |} log = (Ok image, log') ->
  let attempt :=
    Agent.deploy E (Launch.core this) (Launch.launch_deploy_options image options) in
  exists deployed res,
    fst (attempt (Outside.pipeline_calls log')) = Ok deployed /\
    fst (Launch.launch E host this options log) = Ok res /\
    Outside.pipeline_calls (Outside.io_calls (Launch.launch E host this options) log)
      = calls attempt (Outside.pipeline_calls log') /\
    Outside.files_written (Outside.io_calls (Launch.launch E host this options) log) = [] /\
    Launch.launched res = success deployed /\
    (success deployed = true -> res = launch_success options image deployed) /\
    (success deployed = false ->
     res = launch_failure (error deployed) /\ Launch.launch_image res = None).
Proof.
  intros Hg. cbv zeta.
  pose proof (launch_unfold E host this options log) as Hl. cbv zeta in Hl.
  destruct (generate_log E host (Launch.imageGenerator this)
              {| Generator.prompt := Launch.prompt options;
                 Generator.quality := None;
                 Generator.size := None;
                 Generator.format := None;
                 Generator.outputPath := None |} log) as (cs & Hcs & Hp & _ & Hw).
  rewrite Hg in Hl, Hcs. cbn [fst snd] in Hl, Hcs.
  destruct Hl as (d & Hd & Hl).
  exists d. eexists. split; [exact Hd|]. rewrite Hl. cbn [fst].
  split; [reflexivity|].
  rewrite (io_calls_app _ _ (cs ++ map Outside.Pipeline
                                  (calls (Agent.deploy E (Launch.core this)
                                            (Launch.launch_deploy_options image options))
                                         (Outside.pipeline_calls log'))))
    by (rewrite Hl; cbn [snd]; rewrite Hcs, app_assoc; reflexivity).
  split.
  { rewrite pipeline_calls_app, Hp. reflexivity. }
  split.
  { clear - Hw. specialize (Hw eq_refl).
    induction cs as [|c cs IH]; cbn.
    - induction (calls _ _) as [|ev evs IH]; cbn; auto.
    - destruct c; cbn in *; try discriminate; auto. }
  destruct (success d); cbn; repeat split; auto; discriminate.
Qed.

Lemma launch_is_one_deploy_witness :
  let E := Scenario.good_world in
  let this := Studio.agent Studio.painter in
  let attempt :=
    Agent.deploy E (Launch.core this)
                 (Launch.launch_deploy_options Studio.painted Studio.cosmic) in
  exists deployed res,
    fst (attempt (Outside.pipeline_calls [Outside.ImagesGenerate Studio.cosmic_request]))
      = Ok deployed /\
    fst (Launch.launch E Studio.disk this Studio.cosmic []) = Ok res /\
    Outside.pipeline_calls (Outside.io_calls (Launch.launch E Studio.disk this Studio.cosmic) [])
      = calls attempt (Outside.pipeline_calls [Outside.ImagesGenerate Studio.cosmic_request]) /\
    Outside.files_written (Outside.io_calls (Launch.launch E Studio.disk this Studio.cosmic) [])
      = [] /\
    Launch.launched res = success deployed /\
    (success deployed = true -> res = launch_success Studio.cosmic Studio.painted deployed) /\
    (success deployed = false ->
     res = launch_failure (error deployed) /\ Launch.launch_image res = None).
Proof.
  cbv zeta.
  apply (launch_is_one_deploy Scenario.good_world Studio.disk
           (Studio.agent Studio.painter) Studio.cosmic []
           [Outside.ImagesGenerate Studio.cosmic_request] Studio.painted).
  reflexivity.
Defined.

(** X20: what [launch] uploads.  Once the image is generated, the
    launch uploads exactly one form: its [file] part holds the decoded
    [base64] of the generated image (named "image.png", of type
    "image/png"), its [name] and [symbol] are the launch's name and
    ticker, and its [description] is the caller's when that is a
    non-empty string, else "<name> - AI-generated art token". *)
Theorem launch_uploads_the_generated_image
  (E : Env) (host : Outside.Host) (this : Launch.TurnipAgent)
  (options : Launch.LaunchOptions) (log log' : Outside.Log)
  (image : Agent.GeneratedImage) :
  Generator.generate E host (Launch.imageGenerator this)
    {| Generator.prompt := Launch.prompt options;
       Generator.quality := None;
       Generator.size := None;
       Generator.format := None;
       Generator.outputPath := None |} log = (Ok image, log') ->
  exists form,
    uploads (Outside.pipeline_calls
               (Outside.io_calls (Launch.launch E host this options) log)) = [form] /\
    form_field form "file"
      = Some (FFile (Buffer_from_base64 E (Agent.base64 image)) "image.png" "image/png") /\
    form_field form "name" = Some (FText (Launch.name options)) /\
    form_field form "symbol" = Some (FText (Launch.ticker options)) /\
    form_field form "description"
      = Some (FText match Launch.description options with
                    | Some (String c s) => String c s
                    | _ => String.append (Launch.name options) " - AI-generated art token"
                    end).
Proof.
  intros Hg.
  pose proof (launch_unfold E host this options log) as Hl. cbv zeta in Hl.
  destruct (generate_log E host (Launch.imageGenerator this)
              {| Generator.prompt := Launch.prompt options;
                 Generator.quality := None;
                 Generator.size := None;
                 Generator.format := None;
                 Generator.outputPath := None |} log) as (cs & Hcs & Hp & _ & _).
  rewrite Hg in Hl, Hcs. cbn [fst snd] in Hl, Hcs.
  destruct Hl as (d & _ & Hl).
  rewrite (io_calls_app _ _ (cs ++ map Outside.Pipeline
                                  (calls (Agent.deploy E (Launch.core this)
                                            (Launch.launch_deploy_options image options))
                                         (Outside.pipeline_calls log'))))
    by (rewrite Hl; cbn [snd]; rewrite Hcs, app_assoc; reflexivity).
  rewrite pipeline_calls_app, Hp. cbn [app].
  unfold Agent.deploy. rewrite deploy_uploads.
  eexists. split; [reflexivity|].
  destruct options as [p n t d0 tw tg w dv sl]; cbn.
  destruct d0 as [[|? ?]|], tw as [[|? ?]|], tg as [[|? ?]|], w as [[|? ?]|];
    repeat split; reflexivity.
Qed.

Lemma launch_uploads_the_generated_image_witness :
  exists form,
    uploads (Outside.pipeline_calls
               (Outside.io_calls (Launch.launch Scenario.good_world Studio.disk
                                    (Studio.agent Studio.painter) Studio.cosmic) []))
      = [form] /\
    form_field form "file"
      = Some (FFile (Buffer_from_base64 Scenario.good_world "iVBORw0KGgo=")
                    "image.png" "image/png") /\
    form_field form "name" = Some (FText "Cosmic Turnip") /\
    form_field form "symbol" = Some (FText "CTRNP") /\
    form_field form "description"
      = Some (FText "Cosmic Turnip - AI-generated art token").
Proof.
  apply (launch_uploads_the_generated_image Scenario.good_world Studio.disk
           (Studio.agent Studio.painter) Studio.cosmic []
           [Outside.ImagesGenerate Studio.cosmic_request] Studio.painted).
  reflexivity.
Defined.

(** ** [TurnipAgent.healthCheck] *)

(** X21: [healthCheck] never throws.  It asks the node for its version
    first and probes OpenAI with exactly one chat request whatever the
    node answered; the balance is looked up, for the wallet's own
    address, only after a truthy version came back; [wallet] can be
    true only with [helius] true and a balance above 0; and whenever
    [helius] is reported false, also because the balance look-up threw
    after a good version answer, [wallet] is false and [balance] is 0. *)
Theorem healthCheck_reports
  (host : Outside.Host) (this : Launch.TurnipAgent) (log : Outside.Log) :
  exists report log',
    Launch.healthCheck host this log = (Ok report, log') /\
    hd_error (Outside.io_calls (Launch.healthCheck host this) log)
      = Some Outside.GetVersion /\
    List.length (Outside.chat_requests
                   (Outside.io_calls (Launch.healthCheck host this) log)) = 1 /\
    (forall pubkey,
       In pubkey (Outside.balance_lookups
                    (Outside.io_calls (Launch.healthCheck host this) log)) ->
       (exists version,
          Outside.getVersion (Helius.rpc (Launch.helius this)) log = Ok version /\
          truthy version = true) /\
       Outside.PublicKey_new host (Agent.getWalletAddress (Launch.core this))
         = Ok pubkey) /\
    (Launch.wallet_ok report = true ->
     Launch.helius_ok report = true /\ SFltb num_0 (Launch.balance report) = true) /\
    (Launch.helius_ok report = false ->
     Launch.wallet_ok report = false /\ Launch.balance report = num_0) /\
    (forall pubkey e,
       Outside.PublicKey_new host (Agent.getWalletAddress (Launch.core this))
         = Ok pubkey ->
       Outside.getBalance (Helius.rpc (Launch.helius this))
                          (log ++ [Outside.GetVersion]) pubkey = Throw e ->
       Launch.helius_ok report = false).
Proof.
  unfold Outside.io_calls. io_run.
  repeat (cbn [fst snd]; split_match); cbn [fst snd];
    eexists; eexists; (split; [reflexivity|]); read_log;
    cbn [hd_error Outside.chat_requests Outside.balance_lookups List.length In
         Launch.wallet_ok Launch.helius_ok Launch.balance andb];
    repeat match goal with |- _ /\ _ => split end;
    try reflexivity; try discriminate;
    try (intros ? []; fail);
    try (intros pubkey [<- | []];
         split; [eexists; split; [reflexivity | assumption] | reflexivity]);
    try (intros Hw; split; [reflexivity | exact Hw]);
    try (intros _; split; reflexivity);
    try (intros ? ? Hk Hb; congruence);
    try (intros ? ? Hk Hb; injection Hk as <-; congruence).
Qed.

(** ** The constructor of [PumpPortalClient] *)

(** X22: the constructor either returns a client that keeps the given
    connection and whose wallet is the keypair derived from the decoded
    private key, or throws the one error "Invalid wallet private key.
    Must be base58 encoded.", whatever the decoder or the key
    derivation threw. *)
Theorem constructor_reports_one_error
  (lib : Construct.KeyLibrary) (connection : Connection) (privateKey : string) :
  match Construct.new_PumpPortalClient lib connection privateKey with
  | Ok this =>
      PumpPortal.connection this = connection /\
      exists secretKey,
        Construct.bs58_decode lib privateKey = Ok secretKey /\
        Construct.Keypair_fromSecretKey lib secretKey = Ok (wallet this) /\
        getPublicKey this = toBase58 (publicKey (wallet this))
  | Throw e =>
      e = Error "Invalid wallet private key. Must be base58 encoded." /\
      ((exists cause, Construct.bs58_decode lib privateKey = Throw cause) \/
       (exists secretKey cause,
          Construct.bs58_decode lib privateKey = Ok secretKey /\
          Construct.Keypair_fromSecretKey lib secretKey = Throw cause))
  end.
Proof.
  unfold Construct.new_PumpPortalClient.
  destruct (Construct.bs58_decode lib privateKey) as [secretKey | cause] eqn:Hd.
  - destruct (Construct.Keypair_fromSecretKey lib secretKey) as [w | cause] eqn:Hk.
    + split; [reflexivity|]. exists secretKey. auto.
    + split; [reflexivity|]. right. eauto.
  - split; [reflexivity|]. left. eauto.
Qed.

(** A [null] body of the upload answer: the [TypeError] of the read is
    what [deploy] reports, not the message of a missing URI. *)
Example deploy_upload_null_body :
  let thrown := Error "Cannot read properties of null (reading 'metadataUri')" in
  let E := Scenario.world (Throw thrown) in
  fst (uploadMetadata E Scenario.turnip []) = Throw thrown /\
  returned (deploy E (Scenario.client VNull) (Scenario.options None None) [])
    = Some (deploy_failure "Cannot read properties of null (reading 'metadataUri')") /\
  map stage (calls (deploy E (Scenario.client VNull) (Scenario.options None None)) [])
    = [0].
Proof. cbv zeta. repeat split; reflexivity. Qed.
